(** * manuex: irrigation decision engine

    A shallow embedding of [weather.py] and [controller.py] and the
    properties of the watering decision, of record construction and of
    the refresh of the held weather data.

    Python values that come out of the provider's JSON are kept as
    dynamically typed values ([Py.json]); numbers are IEEE binary64
    ([float]), which is what Python's [float] is and what its [int]
    agrees with on [+], [<], [==] and truthiness below 2^53. *)

From Stdlib Require Import ZArith List String Bool Lia.
From Stdlib Require Import Floats.
Import ListNotations.

Set Warnings "-inexact-float,-register-all".
Local Open Scope string_scope.

(* ===================================================================== *)
(** * Python values, exceptions and the operations the code uses         *)
(* ===================================================================== *)

Module Py.

(** The exceptions the two modules can raise. *)
Inductive exn : Type :=
| AssertionError
| ValueError
| ConnectionError
| KeyError
| IndexError
| TypeError
| AttributeError
| OverflowError.

(** A computation either returns or raises. *)
Inductive result (A : Type) : Type :=
| Return (a : A)
| Raise (e : exn).
Arguments Return {A} a.
Arguments Raise {A} e.

Definition bind {A B : Type} (c : result A) (k : A -> result B) : result B :=
  match c with
  | Return a => k a
  | Raise e => Raise e
  end.

Definition returns {A : Type} (c : result A) : bool :=
  match c with Return _ => true | Raise _ => false end.

(** What [response.json()] yields. *)
Inductive json : Type :=
| JNull
| JBool (b : bool)
| JNum (x : float)
| JStr (s : string)
| JList (items : list json)
| JDict (entries : list (string * json)).

(** The empty dict [{}], the default of every [.get] in [weather.py]. *)
Definition empty_dict : json := JDict [].

Definition float_of_bool (b : bool) : float := if b then 1%float else 0%float.

(** [bool(v)]. A float is true unless it equals zero, so NaN is true. *)
Definition truthy (v : json) : bool :=
  match v with
  | JNull => false
  | JBool b => b
  | JNum x => negb (x =? 0)%float
  | JStr s => match s with EmptyString => false | _ => true end
  | JList items => match items with [] => false | _ => true end
  | JDict entries => match entries with [] => false | _ => true end
  end.

(** A value used as an operand of [+] or [>] against a number:
    numbers and bools are fine, everything else is a [TypeError]. *)
Definition number (v : json) : result float :=
  match v with
  | JNum x => Return x
  | JBool b => Return (float_of_bool b)
  | _ => Raise TypeError
  end.

Fixpoint lookup (k : string) (entries : list (string * json)) : option json :=
  match entries with
  | [] => None
  | (k', v) :: rest => if k' =? k then Some v else lookup k rest
  end.

(** [v[k]] for a string key [k]. *)
Definition subscript (v : json) (k : string) : result json :=
  match v with
  | JDict entries =>
      match lookup k entries with
      | Some x => Return x
      | None => Raise KeyError
      end
  | _ => Raise TypeError
  end.

(** [v[0]]. *)
Definition first_item (v : json) : result json :=
  match v with
  | JList [] => Raise IndexError
  | JList (x :: _) => Return x
  | JStr EmptyString => Raise IndexError
  | JStr (String c _) => Return (JStr (String c EmptyString))
  | JDict _ => Raise KeyError
  | _ => Raise TypeError
  end.

(** [v.get(k, default)]. *)
Definition get (v : json) (k : string) (default : json) : result json :=
  match v with
  | JDict entries =>
      match lookup k entries with
      | Some x => Return x
      | None => Return default
      end
  | _ => Raise AttributeError
  end.

Fixpoint chars (s : string) : list json :=
  match s with
  | EmptyString => []
  | String c rest => JStr (String c EmptyString) :: chars rest
  end.

(** [for i in v]: the items of a list, the keys of a dict, the
    characters of a string. *)
Definition iterate (v : json) : result (list json) :=
  match v with
  | JList items => Return items
  | JDict entries => Return (map (fun kv => JStr (fst kv)) entries)
  | JStr s => Return (chars s)
  | _ => Raise TypeError
  end.

(** [v != n] for a number [n]. *)
Definition ne_number (v : json) (n : float) : bool :=
  match v with
  | JNum x => negb (x =? n)%float
  | JBool b => negb (float_of_bool b =? n)%float
  | _ => true
  end.

(** [v != s] for a string [s]. *)
Definition ne_string (v : json) (s : string) : bool :=
  match v with
  | JStr s' => negb (s' =? s)
  | _ => true
  end.

(** [float(n)] for a Python [int]; exact below 2^53, which covers every
    use below. *)
Definition float_of_int (z : Z) : float :=
  if (z <? 0)%Z then (- of_uint63 (Uint63Axioms.of_Z (- z)))%float
  else of_uint63 (Uint63Axioms.of_Z z).

(** [xs[:n]]: a negative [n] counts from the end. *)
Definition slice_to {A : Type} (xs : list A) (n : Z) : list A :=
  if (n <? 0)%Z then firstn (Z.to_nat (Z.of_nat (List.length xs) + n)) xs
  else firstn (Z.to_nat n) xs.

(** A list comprehension whose body can raise. *)
Fixpoint comprehension {A B : Type} (f : A -> result B) (xs : list A)
  : result (list B) :=
  match xs with
  | [] => Return []
  | x :: rest =>
      bind (f x) (fun y =>
      bind (comprehension f rest) (fun ys =>
      Return (y :: ys)))
  end.

End Py.

Import Py.

Declare Scope py_scope.
Delimit Scope py_scope with py.
Notation "x <- c ;; k" := (bind c (fun x => k))
  (at level 61, c at next level, right associativity) : py_scope.
Local Open Scope py_scope.

(* ===================================================================== *)
(** * weather.py                                                         *)
(* ===================================================================== *)

Module weather.

(** [datetime.fromtimestamp]: the instant is kept as its timestamp. A
    value that is not a number is a [TypeError], NaN a [ValueError] and an
    infinity an [OverflowError]; the platform's year range is not
    modelled. *)
Definition fromtimestamp (v : json) : result float :=
  x <- number v ;;
  if is_nan x then Raise ValueError
  else if is_infinity x then Raise OverflowError
  else Return x.

(** [class DataPoint]. Every attribute but [dt] holds whatever value the
    record had at that place: Python does not enforce the annotations. *)
Record DataPoint : Type := {
  dt : float;
  temp : json;
  humidity : json;
  id : json;
  description : json;
  icon : json;
  city_name : json;
  rain_last_hour : json;
  rain_three_hours : json
}.

(** [DataPoint.__init__], one line of the model per assignment. *)
Definition DataPoint_init (record : json) : result DataPoint :=
  dt_ <- (v <- subscript record "dt" ;; fromtimestamp v) ;;
  temp_ <- (m <- get record "main" empty_dict ;; subscript m "temp") ;;
  humidity_ <- (m <- get record "main" empty_dict ;; subscript m "humidity") ;;
  id_ <- (w <- get record "weather" (JList []) ;;
          w0 <- first_item w ;; subscript w0 "id") ;;
  description_ <- (w <- get record "weather" (JList []) ;;
                   w0 <- first_item w ;; subscript w0 "description") ;;
  icon_ <- (w <- get record "weather" (JList []) ;;
            w0 <- first_item w ;; subscript w0 "icon") ;;
  city_name_ <- get record "name" empty_dict ;;
  rain_last_hour_ <- (r <- get record "rain" empty_dict ;; get r "1h" empty_dict) ;;
  rain_three_hours_ <- (r <- get record "rain" empty_dict ;; get r "3h" empty_dict) ;;
  Return {| dt := dt_; temp := temp_; humidity := humidity_; id := id_;
            description := description_; icon := icon_;
            city_name := city_name_; rain_last_hour := rain_last_hour_;
            rain_three_hours := rain_three_hours_ |}.

(** [class Forecast]. *)
Record Forecast : Type := { data : list DataPoint }.

(** [Forecast.__init__]: [[DataPoint(i) for i in json['list']]]. *)
Definition Forecast_init (response : json) : result Forecast :=
  l <- subscript response "list" ;;
  items <- iterate l ;;
  points <- comprehension DataPoint_init items ;;
  Return {| data := points |}.

(** One GET of [requests]: the provider cannot be reached, or it answers
    with a body that [.json()] decodes ([Some]) or rejects with a
    [ValueError] ([None]). *)
Inductive reply : Type :=
| Unreachable
| Answer (body : option json).

(** The two requests [get_weather] sends. *)
Inductive request : Type :=
| CurrentWeather (q appid units : string)
| FiveDayForecast (q appid units : string) (cnt : Z).

Definition provider : Type := request -> reply.

(** [class WeatherAPI]. [current] and [forecast] are unset until the
    first [get_weather] that gets to assign them. *)
Record WeatherAPI : Type := {
  location_name : string;
  api_key : string;
  units : string;
  count : Z;
  current : option DataPoint;
  forecast : option Forecast
}.

Definition set_current (self : WeatherAPI) (c : DataPoint) : WeatherAPI :=
  {| location_name := location_name self; api_key := api_key self;
     units := units self; count := count self;
     current := Some c; forecast := forecast self |}.

Definition set_forecast (self : WeatherAPI) (f : Forecast) : WeatherAPI :=
  {| location_name := location_name self; api_key := api_key self;
     units := units self; count := count self;
     current := current self; forecast := Some f |}.

(** A method: it returns or raises, and leaves the object in some state
    either way. *)
Definition method (A : Type) : Type := WeatherAPI -> result A * WeatherAPI.

Definition pure {A : Type} (c : result A) : method A := fun self => (c, self).

Definition and_then {A B : Type} (m : method A) (k : A -> method B) : method B :=
  fun self =>
    match m self with
    | (Return a, self') => k a self'
    | (Raise e, self') => (Raise e, self')
    end.

Definition assign_current (c : DataPoint) : method unit :=
  fun self => (Return tt, set_current self c).

Definition assign_forecast (f : Forecast) : method unit :=
  fun self => (Return tt, set_forecast self f).

Notation "x <~ m ;; k" := (and_then m (fun x => k))
  (at level 61, m at next level, right associativity).

Definition send (net : provider) (r : request) : result (option json) :=
  match net r with
  | Unreachable => Raise ConnectionError
  | Answer body => Return body
  end.

(** [response.json()]. *)
Definition decode (body : option json) : result json :=
  match body with
  | Some j => Return j
  | None => Raise ValueError
  end.

(** The condition of the [if] of [get_weather], with [or] cutting short
    from left to right. *)
Definition not_valid (current_json forecast_json : json) : result bool :=
  if negb (truthy current_json) then Return true
  else if negb (truthy forecast_json) then Return true
  else
    c <- subscript current_json "cod" ;;
    if ne_number c 200 then Return true
    else
      f <- subscript forecast_json "cod" ;;
      Return (ne_string f "200").

(** The [raise ValueError(f"...")]: the message reads both codes with
    [.get] before the exception exists. *)
Definition raise_not_valid (current_json forecast_json : json) : result unit :=
  _ <- get current_json "cod" (JStr "json is empty") ;;
  _ <- get forecast_json "cod" (JStr "json is empty") ;;
  Raise ValueError.

(** [WeatherAPI.get_weather]. *)
Definition get_weather (location_name_ api_key_ units_ : string) (count_ : Z)
    (net : provider) : method unit :=
  current_ <~ pure (send net (CurrentWeather location_name_ api_key_ units_)) ;;
  forecast_ <~ pure (send net (FiveDayForecast location_name_ api_key_ units_ count_)) ;;
  current_json <~ pure (decode current_) ;;
  forecast_json <~ pure (decode forecast_) ;;
  bad <~ pure (not_valid current_json forecast_json) ;;
  _ <~ pure (if bad : bool then raise_not_valid current_json forecast_json
             else Return tt) ;;
  c <~ pure (DataPoint_init current_json) ;;
  _ <~ assign_current c ;;
  f <~ pure (Forecast_init forecast_json) ;;
  assign_forecast f.

(** [WeatherAPI.update]. *)
Definition update (location : string) (net : provider) : method unit :=
  fun self => get_weather location (api_key self) (units self) (count self) net self.

(** [WeatherAPI.__init__]: an exception of [update] leaves no object. *)
Definition WeatherAPI_init (location_name_ api_key_ units_ : string) (count_ : Z)
    (net : provider) : result WeatherAPI :=
  let self := {| location_name := location_name_; api_key := api_key_;
                 units := units_; count := count_;
                 current := None; forecast := None |} in
  match update location_name_ net self with
  | (Return _, self') => Return self'
  | (Raise e, _) => Raise e
  end.

End weather.

(* ===================================================================== *)
(** * controller.py                                                      *)
(* ===================================================================== *)

Module controller.
Import weather.

(** The three accumulators of the loop. *)
Record totals : Type := {
  total_rainfall : float;
  max_temp : float;
  max_humidity : float
}.

Definition start : totals :=
  {| total_rainfall := 0; max_temp := 0; max_humidity := 0 |}.

(** The body of [for time_step in forecast.data[:lookahead_time_steps]]. *)
Definition accumulate (a : totals) (time_step : DataPoint) : result totals :=
  total <- (if truthy (rain_three_hours time_step)
            then r <- number (rain_three_hours time_step) ;;
                 Return (total_rainfall a + r)%float
            else Return (total_rainfall a)) ;;
  t <- number (temp time_step) ;;
  let hottest := if (max_temp a <? t)%float then t else max_temp a in
  h <- number (humidity time_step) ;;
  let dampest := if (max_humidity a <? h)%float then h else max_humidity a in
  Return {| total_rainfall := total; max_temp := hottest;
            max_humidity := dampest |}.

Fixpoint for_each (time_steps : list DataPoint) (a : totals) : result totals :=
  match time_steps with
  | [] => Return a
  | time_step :: rest => a' <- accumulate a time_step ;; for_each rest a'
  end.

(** [Controller.make_decision]. *)
Definition make_decision (forecast : Forecast)
    (sensor_moisture moisture_treshlod lookahead_hours : Z) : result bool :=
  if negb ((3 <=? lookahead_hours)%Z && (lookahead_hours <? 120)%Z)
  then Raise AssertionError
  else
    let lookahead_time_steps := (lookahead_hours / 3)%Z in
    a <- for_each (slice_to (data forecast) lookahead_time_steps) start ;;
    let need := (0.45 * float_of_int lookahead_time_steps)%float in
    if (sensor_moisture <? moisture_treshlod)%Z then
      if (total_rainfall a <? need)%float then Return true else Return false
    else
      if (30 <? max_temp a)%float then
        if (total_rainfall a <? need)%float && (sensor_moisture <? 60)%Z
        then Return true else Return false
      else Return false.

(** The default [lookahead_hours = 3]. *)
Definition make_decision_default (forecast : Forecast)
    (sensor_moisture moisture_treshlod : Z) : result bool :=
  make_decision forecast sensor_moisture moisture_treshlod 3.

End controller.

(* ===================================================================== *)
(** * The decision rule in the words of the specification                *)
(* ===================================================================== *)

Module DecisionEngine.
Import weather controller.

(** The errors of the specification, and the Python exceptions that
    stand for them. *)
Inductive error : Type :=
| InvalidParameterError
| ProviderUnavailableError
| DataFormatError.

Definition classify (e : exn) : error :=
  match e with
  | AssertionError => InvalidParameterError
  | ConnectionError => ProviderUnavailableError
  | ValueError | KeyError | IndexError | TypeError | AttributeError
  | OverflowError => DataFormatError
  end.

(** A DataPoint of the data model: temperature and humidity are numbers,
    the three-hour rain is a number or absent (the empty dict). *)
Definition typed_point (p : DataPoint) : bool :=
  match temp p, humidity p, rain_three_hours p with
  | JNum _, JNum _, JNum _ => true
  | JNum _, JNum _, JDict [] => true
  | _, _, _ => false
  end.

Definition typed_forecast (f : Forecast) : bool := forallb typed_point (data f).

(** [steps = lookaheadHours // stepDurationHours], truncating toward zero. *)
Definition stepDurationHours : Z := 3.
Definition steps (lookaheadHours : Z) : Z := Z.quot lookaheadHours stepDurationHours.

(** The first [n] entries, or all of them when there are fewer. *)
Definition prefix (f : Forecast) (n : Z) : list DataPoint :=
  firstn (Z.to_nat n) (data f).

Definition rainThreeHours (p : DataPoint) : option float :=
  match rain_three_hours p with JNum x => Some x | _ => None end.

Definition temperature (p : DataPoint) : option float :=
  match temp p with JNum x => Some x | _ => None end.

Definition add_present (s : float) (r : option float) : float :=
  match r with Some x => (s + x)%float | None => s end.

Definition larger (m : float) (t : option float) : float :=
  match t with
  | Some x => if (m <? x)%float then x else m
  | None => m
  end.

Definition sum_from (s : float) (ps : list DataPoint) : float :=
  fold_left (fun s p => add_present s (rainThreeHours p)) ps s.

Definition max_from (m : float) (ps : list DataPoint) : float :=
  fold_left (fun m p => larger m (temperature p)) ps m.

(** The sum of the values that are present, an absent one adding nothing. *)
Definition totalRainfall (ps : list DataPoint) : float := sum_from 0 ps.

(** The maximum of the temperatures, starting from 0. *)
Definition maxTemp (ps : list DataPoint) : float := max_from 0 ps.

(** [totalRainfall < 0.45 * steps]. *)
Definition littleRain (total : float) (n : Z) : bool :=
  (total <? 0.45 * float_of_int n)%float.

(** Step 4 of the algorithm. *)
Definition rule (soilMoisture moistureThreshold n : Z) (total hottest : float) : bool :=
  if (soilMoisture <? moistureThreshold)%Z then littleRain total n
  else (30 <? hottest)%float && littleRain total n && (soilMoisture <? 60)%Z.

(** The entry's temperature is above [c]. *)
Definition above (c : float) (p : DataPoint) : bool :=
  match temperature p with Some t => (c <? t)%float | None => false end.

(** Two DataPoints that differ at most in their humidity. *)
Definition same_but_humidity (p q : DataPoint) : Prop :=
  dt p = dt q /\ temp p = temp q /\ id p = id q /\
  description p = description q /\ icon p = icon q /\
  city_name p = city_name q /\ rain_last_hour p = rain_last_hour q /\
  rain_three_hours p = rain_three_hours q.

(** A sub-response that reports success: the current weather answers
    with the number 200, the forecast with the string "200". *)
Definition current_succeeded (current_json : json) : bool :=
  match current_json with
  | JDict entries =>
      match lookup "cod" entries with
      | Some c => negb (ne_number c 200)
      | None => false
      end
  | _ => false
  end.

Definition forecast_succeeded (forecast_json : json) : bool :=
  match forecast_json with
  | JDict entries =>
      match lookup "cod" entries with
      | Some c => negb (ne_string c "200")
      | None => false
      end
  | _ => false
  end.

End DecisionEngine.

(* ===================================================================== *)
(** * Sample data                                                        *)
(* ===================================================================== *)

Module Samples.
Import weather.

(** A forecast entry with the given temperature, humidity and rain. *)
Definition entry (t h : float) (rain : json) : DataPoint :=
  {| dt := 1700000000; temp := JNum t; humidity := JNum h; id := JNum 800;
     description := JStr "clear sky"; icon := JStr "01d";
     city_name := empty_dict; rain_last_hour := empty_dict;
     rain_three_hours := rain |}.

Definition three_steps : Forecast :=
  {| data := [entry 20 50 (JNum 0.2); entry 21 55 empty_dict; entry 19 60 (JNum 0.3)] |}.

Definition hot_step : Forecast := {| data := [entry 32 50 empty_dict] |}.

Definition frost : Forecast :=
  {| data := [entry (-3) 70 empty_dict; entry (-1.5) 75 (JNum 0.1)] |}.

(** [three_steps] with other humidities. *)
Definition three_steps_damp : Forecast :=
  {| data := [entry 20 90 (JNum 0.2); entry 21 95 empty_dict; entry 19 99 (JNum 0.3)] |}.

(** A provider record, with or without a "rain" object. *)
Definition record (cod : json) (rain : list (string * json)) : json :=
  JDict ([("cod", cod); ("dt", JNum 1700000000);
          ("main", JDict [("temp", JNum 21.5); ("humidity", JNum 60)]);
          ("weather", JList [JDict [("id", JNum 800);
                                    ("description", JStr "clear sky");
                                    ("icon", JStr "01d")]]);
          ("name", JStr "Eindhoven")] ++ rain).

Definition dry_record : json := record (JNum 200) [].

Definition wet_record : json :=
  record (JNum 200) [("rain", JDict [("1h", JNum 0); ("3h", JNum 1.5)])].

(** The DataPoints the two records construct. *)
Definition dry_point : DataPoint :=
  {| dt := 1700000000; temp := JNum 21.5; humidity := JNum 60; id := JNum 800;
     description := JStr "clear sky"; icon := JStr "01d";
     city_name := JStr "Eindhoven"; rain_last_hour := empty_dict;
     rain_three_hours := empty_dict |}.

Definition wet_point : DataPoint :=
  {| dt := 1700000000; temp := JNum 21.5; humidity := JNum 60; id := JNum 800;
     description := JStr "clear sky"; icon := JStr "01d";
     city_name := JStr "Eindhoven"; rain_last_hour := JNum 0;
     rain_three_hours := JNum 1.5 |}.

(** A forecast response of one entry, and one that lacks its "list". *)
Definition forecast_response : json :=
  JDict [("cod", JStr "200"); ("list", JList [wet_record])].

Definition forecast_without_list : json := JDict [("cod", JStr "200")].

Definition not_found : json :=
  JDict [("cod", JStr "404"); ("message", JStr "city not found")].

(** A provider that answers the two requests with the given bodies. *)
Definition answers (current_json forecast_json : json) : provider :=
  fun r =>
    match r with
    | CurrentWeather _ _ _ => Answer (Some current_json)
    | FiveDayForecast _ _ _ _ => Answer (Some forecast_json)
    end.

(** An object that already holds data from an earlier refresh. *)
Definition held : WeatherAPI :=
  {| location_name := "Eindhoven"; api_key := "key"; units := "metric";
     count := 8;
     current := Some (entry 5 80 empty_dict);
     forecast := Some {| data := [entry 5 80 empty_dict] |} |}.

End Samples.

(* ===================================================================== *)
(** * Facts about binary64 comparison and addition                       *)
(* ===================================================================== *)

Module Binary64.

Definition is_zeroSF (s : spec_float) : bool :=
  match s with S754_zero _ => true | _ => false end.

(** Two sums that are equal, or are both a zero (of either sign). *)
Definition alike (x y : float) : Prop :=
  x = y \/ ((x =? 0)%float = true /\ (y =? 0)%float = true).

Definition not_nanSF (s : spec_float) : bool :=
  match s with S754_nan => false | _ => true end.

Definition not_nan (x : float) : bool := not_nanSF (Prim2SF x).

(** The place of a number that is not NaN in the order of [SFcompare]:
    its class first, then exponent and mantissa, reversed below zero. *)
Definition place (s : spec_float) : Z * Z * Z :=
  match s with
  | S754_nan => (0, 0, 0)
  | S754_zero _ => (0, 0, 0)
  | S754_infinity true => (-2, 0, 0)
  | S754_infinity false => (2, 0, 0)
  | S754_finite true m e => (-1, - e, - Zpos m)
  | S754_finite false m e => (1, e, Zpos m)
  end%Z.

Definition before (a b : Z * Z * Z) : Prop :=
  let '(a1, a2, a3) := a in
  let '(b1, b2, b3) := b in
  (a1 < b1 \/ (a1 = b1 /\ (a2 < b2 \/ (a2 = b2 /\ a3 < b3))))%Z.

End Binary64.

(* ===================================================================== *)
(** * app.py: the routes that call the two modules                       *)
(* ===================================================================== *)

Module app.
Import weather controller.

(** A setting is the [int] it starts as, or the [str] a form puts in its
    place. *)
Inductive setting : Type :=
| Number (n : Z)
| Text (s : string).

(** [sensor_moisture] is [0] at start, later the raw body of a request. *)
Inductive reading : Type :=
| Startup (n : Z)
| Body (b : string).

(** The module's globals. *)
Record globals : Type := {
  threshold : setting;
  water_amount : setting;
  location : string;
  sensor_moisture : reading;
  weather_data : WeatherAPI
}.

(** The globals once [__main__] has built [weather_data]. *)
Definition at_start (w : WeatherAPI) : globals :=
  {| threshold := Number 45; water_amount := Number 50;
     location := "Eindhoven"; sensor_moisture := Startup 0;
     weather_data := w |}.

Definition set_weather_data (g : globals) (w : WeatherAPI) : globals :=
  {| threshold := threshold g; water_amount := water_amount g;
     location := location g; sensor_moisture := sensor_moisture g;
     weather_data := w |}.

Definition set_location (g : globals) (l : string) : globals :=
  {| threshold := threshold g; water_amount := water_amount g;
     location := l; sensor_moisture := sensor_moisture g;
     weather_data := weather_data g |}.

Definition set_threshold (g : globals) (t : setting) : globals :=
  {| threshold := t; water_amount := water_amount g;
     location := location g; sensor_moisture := sensor_moisture g;
     weather_data := weather_data g |}.

Definition set_water_amount (g : globals) (a : setting) : globals :=
  {| threshold := threshold g; water_amount := a;
     location := location g; sensor_moisture := sensor_moisture g;
     weather_data := weather_data g |}.

Definition set_sensor_moisture (g : globals) (r : reading) : globals :=
  {| threshold := threshold g; water_amount := water_amount g;
     location := location g; sensor_moisture := r;
     weather_data := weather_data g |}.

(** What a route answers: a template with the values handed to it, or
    a plain text. *)
Inductive page : Type :=
| error_html (error : exn)
| index_html (data : WeatherAPI) (moisture : reading)
| forecast_html (data : WeatherAPI)
| settings_html (threshold_ water_amount_ : setting) (location_ : string)
| plain (body : string).

Inductive verb : Type := GET | POST.

(** A route returns a page or raises, and leaves the globals in some
    state either way. *)
Definition route : Type := globals -> result page * globals.

(** [except (ValueError, ConnectionError)]. [app.py] imports no
    [ConnectionError], so the name is Python's builtin one. The
    [ConnectionError] of [weather.py] is the one of [requests], a
    [RequestException] and so an [OSError], which the builtin class is
    no base of: the clause catches the [ValueError] only. *)
Definition caught (e : exn) : bool :=
  match e with
  | ValueError => true
  | _ => false
  end.

(** [index]. *)
Definition index (net : provider) : route :=
  fun g =>
    match update (location g) net (weather_data g) with
    | (Raise ex, w) =>
        if caught ex then (Return (error_html ex), set_weather_data g w)
        else (Raise ex, set_weather_data g w)
    | (Return _, w) =>
        (Return (index_html w (sensor_moisture g)), set_weather_data g w)
    end.

(** [forecast]. *)
Definition forecast (net : provider) : route :=
  fun g =>
    match update (location g) net (weather_data g) with
    | (Raise ex, w) =>
        if caught ex then (Return (error_html ex), set_weather_data g w)
        else (Raise ex, set_weather_data g w)
    | (Return _, w) => (Return (forecast_html w), set_weather_data g w)
    end.

Fixpoint field (k : string) (form : list (string * string)) : option string :=
  match form with
  | [] => None
  | (k', v) :: rest => if k' =? k then Some v else field k rest
  end.

(** [request.form[k]]: a missing field is a [KeyError] (which Flask
    answers as 400). *)
Definition form_item (form : list (string * string)) (k : string) : result string :=
  match field k form with
  | Some v => Return v
  | None => Raise KeyError
  end.

(** [settings]. *)
Definition settings (method_ : verb) (form : list (string * string)) : route :=
  fun g =>
    match method_ with
    | GET => (Return (settings_html (threshold g) (water_amount g) (location g)), g)
    | POST =>
        match form_item form "location" with
        | Raise e => (Raise e, g)
        | Return l =>
        let g1 := set_location g l in
        match form_item form "threshold" with
        | Raise e => (Raise e, g1)
        | Return t =>
        let g2 := set_threshold g1 (Text t) in
        match form_item form "water-amount" with
        | Raise e => (Raise e, g2)
        | Return a =>
        let g3 := set_water_amount g2 (Text a) in
        (Return (settings_html (threshold g3) (water_amount g3) (location g3)), g3)
        end end end
    end.

(** [Controller.make_decision(forecast, moisture_value, threshold)] as
    [display] calls it, with the default lookahead of 3. With a [str]
    threshold the call passes the assert, runs the loop and raises a
    [TypeError] at [sensor_moisture < moisture_treshlod]. *)
Definition call_make_decision (f : Forecast) (moisture_value : Z)
    (threshold_ : setting) : result bool :=
  match threshold_ with
  | Number t => make_decision f moisture_value t 3
  | Text _ =>
      _ <- for_each (slice_to (data f) (3 / 3)) start ;;
      Raise TypeError
  end.

(** [str(b)] of a bool. *)
Definition str (b : bool) : string := if b then "True" else "False".

(** [weather_data.forecast]: an attribute that was never assigned is an
    [AttributeError]. *)
Definition forecast_of (w : WeatherAPI) : result Forecast :=
  match weather.forecast w with
  | Some f => Return f
  | None => Raise AttributeError
  end.

(** One request to the application. *)
Inductive call : Type :=
| to_index (net : provider)
| to_forecast (net : provider)
| to_settings (method_ : verb) (form : list (string * string))
| to_base (net : provider) (body : string).

Section Display.

(** [int(body.decode("utf-8"))], whatever it makes of a body. *)
Variable int_of_utf8 : string -> result Z.

(** [display]. *)
Definition display (net : provider) (body : string) : route :=
  fun g =>
    let g1 := set_sensor_moisture g (Body body) in
    match int_of_utf8 body with
    | Raise e => (Raise e, g1)
    | Return moisture_value =>
        match update (location g1) net (weather_data g1) with
        | (Raise e, w) => (Raise e, set_weather_data g1 w)
        | (Return _, w) =>
            let g2 := set_weather_data g1 w in
            match (f <- forecast_of w ;;
                   call_make_decision f moisture_value (threshold g2)) with
            | Raise e => (Raise e, g2)
            | Return b => (Return (plain (str b)), g2)
            end
        end
    end.

Definition serve (c : call) : route :=
  match c with
  | to_index net => index net
  | to_forecast net => forecast net
  | to_settings method_ form => settings method_ form
  | to_base net body => display net body
  end.

(** The globals after a run of requests. *)
Fixpoint after (calls : list call) (g : globals) : globals :=
  match calls with
  | [] => g
  | c :: rest => after rest (snd (serve c g))
  end.

End Display.

End app.

(* ===================================================================== *)
(** * Shapes of records and of forecasts                                 *)
(* ===================================================================== *)

Module Shapes.
Import weather controller.



(** The keys [DataPoint.__init__] reads at the top of a record. *)
Definition read_keys : list string := ["dt"; "main"; "weather"; "name"; "rain"].

Definition is_dict (v : json) : bool :=
  match v with JDict _ => true | _ => false end.

(** An iterable with nothing in it. *)
Definition empty_iterable (v : json) : bool :=
  match v with
  | JList [] | JDict [] | JStr EmptyString => true
  | _ => false
  end.

(** Both attributes have been assigned. *)
Definition both_set (self : WeatherAPI) : bool :=
  match current self, weather.forecast self with
  | Some _, Some _ => true
  | _, _ => false
  end.

(** A run of [update] calls, each with its location and the answers the
    provider gives at that time. *)
Fixpoint updates (calls : list (string * provider)) (self : WeatherAPI) : WeatherAPI :=
  match calls with
  | [] => self
  | (l, net) :: rest => updates rest (snd (update l net self))
  end.

(** A computation that raises nothing but a KeyError, IndexError,
    TypeError, AttributeError, ValueError or OverflowError. *)
Definition raises_data_errors {A : Type} (c : result A) : Prop :=
  forall e, c = Raise e ->
    In e [KeyError; IndexError; TypeError; AttributeError; ValueError; OverflowError].

(** A JSON object that is empty or carries a "cod". *)
Definition coded_or_empty (v : json) : bool :=
  match v with
  | JDict [] => true
  | JDict entries => match lookup "cod" entries with Some _ => true | None => false end
  | _ => false
  end.

(** A provider that answers every request but cannot be reached for the
    forecast. *)
Definition forecast_down (current_body : option json) : provider :=
  fun r =>
    match r with
    | CurrentWeather _ _ _ => Answer current_body
    | FiveDayForecast _ _ _ _ => Unreachable
    end.

End Shapes.

Module FloatFacts.
Import Binary64.
Local Open Scope float_scope.

Lemma Prim2SF_zero : Prim2SF 0 = S754_zero false.
Proof. reflexivity. Qed.

Lemma eqb_zero_SF x : (x =? 0) = is_zeroSF (Prim2SF x).
Proof.
  rewrite FloatAxioms.eqb_spec, Prim2SF_zero.
  destruct (Prim2SF x) as [s|s| |s m e]; try destruct s; reflexivity.
Qed.

Lemma alike_refl x : alike x x.
Proof. now left. Qed.

Lemma alike_trans x y z : alike x y -> alike y z -> alike x z.
Proof.
  intros [->|[Hx Hy]] [->|[Hy' Hz]]; unfold alike; auto.
Qed.

(** A comparison does not see the sign of a zero. *)
Lemma alike_ltb x y c : alike x y -> (x <? c) = (y <? c).
Proof.
  intros [->|[Hx Hy]]; [reflexivity|].
  rewrite eqb_zero_SF in Hx, Hy.
  rewrite !FloatAxioms.ltb_spec.
  destruct (Prim2SF x); try discriminate.
  destruct (Prim2SF y); try discriminate.
  reflexivity.
Qed.

Lemma alike_of_SF x y :
  Prim2SF x = Prim2SF y \/
  (is_zeroSF (Prim2SF x) = true /\ is_zeroSF (Prim2SF y) = true) ->
  alike x y.
Proof.
  intros [E|E]; [left; now apply Prim2SF_inj|].
  right. now rewrite !eqb_zero_SF.
Qed.

Lemma alike_add x y v : alike x y -> alike (x + v) (y + v).
Proof.
  intros [->|[Hx Hy]]; [now left|].
  rewrite eqb_zero_SF in Hx, Hy.
  apply alike_of_SF. rewrite !FloatAxioms.add_spec. unfold SF64add.
  destruct (Prim2SF x) as [sx| | |]; try discriminate.
  destruct (Prim2SF y) as [sy| | |]; try discriminate.
  destruct (Prim2SF v) as [sv|sv| |sv m e]; simpl; auto.
  right. destruct sx, sy, sv; simpl; auto.
Qed.

(** Adding a zero changes a sum at most in the sign of a zero. *)
Lemma alike_add_zero y v : (v =? 0) = true -> alike y (y + v).
Proof.
  intros Hv. rewrite eqb_zero_SF in Hv.
  apply alike_of_SF. rewrite FloatAxioms.add_spec. unfold SF64add.
  destruct (Prim2SF v) as [sv| | |]; try discriminate.
  destruct (Prim2SF y) as [sy|sy| |sy m e]; simpl; auto.
  right. destruct sy, sv; simpl; auto.
Qed.

(** Below zero is not above zero. *)
Lemma ltb_zero_asym t : (t <? 0) = true -> (0 <? t) = false.
Proof.
  rewrite !FloatAxioms.ltb_spec, Prim2SF_zero.
  destruct (Prim2SF t) as [s|s| |s m e]; try destruct s; cbn; intros H;
    first [reflexivity | discriminate].
Qed.

(** [SFltb] is the lexicographic order of the places. *)
Lemma SFltb_place a b :
  not_nanSF a = true -> not_nanSF b = true ->
  (SFltb a b = true <-> before (place a) (place b)).
Proof.
  unfold SFltb, SFcompare.
  destruct a as [sa|sa| |sa ma ea], b as [sb|sb| |sb mb eb]; try discriminate;
    intros _ _; try destruct sa; try destruct sb; cbn;
    try (split; intros; first [reflexivity | discriminate | lia]).
  all: change (PosDef.Pos.compare_cont Eq ma mb) with (Pos.compare ma mb);
    destruct (Z.compare_spec ea eb); destruct (Pos.compare_spec ma mb); cbn;
    split; intros; first [reflexivity | discriminate | lia].
Qed.

Lemma ltb_not_nan x y : (x <? y) = true -> not_nan x = true /\ not_nan y = true.
Proof.
  rewrite FloatAxioms.ltb_spec. unfold not_nan.
  destruct (Prim2SF x), (Prim2SF y); cbn; auto; discriminate.
Qed.

Lemma ltb_place x y :
  not_nan x = true -> not_nan y = true ->
  ((x <? y) = true <-> before (place (Prim2SF x)) (place (Prim2SF y))).
Proof. rewrite FloatAxioms.ltb_spec. apply SFltb_place. Qed.

Lemma ltb_trans x y z : (x <? y) = true -> (y <? z) = true -> (x <? z) = true.
Proof.
  intros A B.
  destruct (ltb_not_nan _ _ A) as [Nx Ny], (ltb_not_nan _ _ B) as [_ Nz].
  rewrite ltb_place in * by assumption.
  destruct (place (Prim2SF x)) as [[? ?] ?], (place (Prim2SF y)) as [[? ?] ?],
    (place (Prim2SF z)) as [[? ?] ?]; cbn in *. lia.
Qed.

(** What is above [y] is above any [x] that is not below [y]. *)
Lemma ltb_not_below x y z :
  not_nan x = true -> (x <? y) = false -> (z <? y) = true -> (z <? x) = true.
Proof.
  intros Nx A B.
  destruct (ltb_not_nan _ _ B) as [Nz Ny].
  assert (A' : ~ before (place (Prim2SF x)) (place (Prim2SF y)))
    by (rewrite <- ltb_place by assumption; congruence).
  rewrite ltb_place in * by assumption.
  destruct (place (Prim2SF x)) as [[? ?] ?], (place (Prim2SF y)) as [[? ?] ?],
    (place (Prim2SF z)) as [[? ?] ?]; cbn in *. lia.
Qed.

End FloatFacts.

(* ===================================================================== *)
(** * The loop and the rule                                              *)
(* ===================================================================== *)

Module EngineFacts.
Import weather controller DecisionEngine Binary64 FloatFacts.

(** ** The loop on a typed forecast *)

Lemma accumulate_typed a p :
  typed_point p = true ->
  exists a', accumulate a p = Return a' /\
    alike (total_rainfall a') (add_present (total_rainfall a) (rainThreeHours p)) /\
    max_temp a' = larger (max_temp a) (temperature p).
Proof.
  unfold typed_point, accumulate, rainThreeHours, temperature.
  destruct (temp p) as [| |t| | |]; try discriminate.
  destruct (humidity p) as [| |h| | |]; try discriminate.
  destruct (rain_three_hours p) as [| |r| | |[|]]; try discriminate; intros _; cbn.
  - destruct (r =? 0)%float eqn:Hr; cbn; eexists; (split; [reflexivity|]); cbn;
      split; auto using alike_refl, alike_add_zero.
  - eexists; split; [reflexivity|]. cbn. auto using alike_refl.
Qed.

Lemma for_each_typed ps : forall a s,
  forallb typed_point ps = true ->
  alike (total_rainfall a) s ->
  exists a', for_each ps a = Return a' /\
    alike (total_rainfall a') (sum_from s ps) /\
    max_temp a' = max_from (max_temp a) ps.
Proof.
  induction ps as [|p ps IH]; intros a s Hty Hs; cbn in *.
  - exists a. auto.
  - apply andb_prop in Hty as [Hp Hps].
    destruct (accumulate_typed a p Hp) as (a1 & -> & Ht & Hm). cbn.
    destruct (IH a1 (add_present s (rainThreeHours p)) Hps) as (a' & E & Ht' & Hm').
    + eapply alike_trans; [exact Ht|].
      destruct (rainThreeHours p); cbn; [now apply alike_add | exact Hs].
    + exists a'. rewrite <- Hm. auto.
Qed.

Lemma typed_firstn n ps :
  forallb typed_point ps = true -> forallb typed_point (firstn n ps) = true.
Proof.
  revert ps; induction n as [|n IH]; intros [|p ps]; cbn; auto.
  intros H. apply andb_prop in H as [-> H]. cbn. auto.
Qed.

Lemma steps_in_range la :
  (3 <= la < 120)%Z -> (la / 3 = steps la /\ 1 <= steps la <= 39)%Z.
Proof.
  intros H. unfold steps, stepDurationHours.
  rewrite Z.quot_div_nonneg by lia.
  split; [reflexivity|].
  split; [apply Z.div_le_lower_bound; lia | ].
  assert (la / 3 < 40)%Z by (apply Z.div_lt_upper_bound; lia). lia.
Qed.

Lemma slice_to_prefix f la :
  (3 <= la < 120)%Z -> slice_to (data f) (la / 3) = prefix f (steps la).
Proof.
  intros H. destruct (steps_in_range la H) as [E B].
  unfold slice_to, prefix. rewrite E.
  destruct (steps la <? 0)%Z eqn:N; [apply Z.ltb_lt in N; lia | reflexivity].
Qed.

Lemma in_range_guard la :
  (3 <= la < 120)%Z -> negb ((3 <=? la)%Z && (la <? 120)%Z) = false.
Proof.
  intros [H1 H2]. apply Z.leb_le in H1. apply Z.ltb_lt in H2.
  now rewrite H1, H2.
Qed.

(** On a typed forecast and a lookahead in range, [make_decision] returns
    what the rule says of the sum and the maximum over the prefix. *)
Lemma make_decision_typed f sm mt la :
  typed_forecast f = true ->
  (3 <= la < 120)%Z ->
  make_decision f sm mt la =
    Return (rule sm mt (steps la) (totalRainfall (prefix f (steps la)))
                 (maxTemp (prefix f (steps la)))).
Proof.
  intros Hty Hla. unfold make_decision.
  rewrite (in_range_guard la Hla), (slice_to_prefix f la Hla).
  destruct (steps_in_range la Hla) as [E _]. rewrite E.
  destruct (for_each_typed (prefix f (steps la)) start 0%float) as (a & -> & Ht & Hm).
  - now apply typed_firstn.
  - apply alike_refl.
  - cbn. unfold rule, littleRain, totalRainfall, maxTemp.
    rewrite (alike_ltb _ _ _ Ht), Hm. cbn [max_temp start].
    destruct (sm <? mt)%Z; [destruct (_ <? _)%float; reflexivity|].
    destruct (30 <? _)%float; [|reflexivity].
    cbn. destruct (_ <? _)%float; cbn; [|reflexivity].
    destruct (sm <? 60)%Z; reflexivity.
Qed.

(** The loop raises nothing but a [TypeError]. *)
Lemma number_raises v e : number v = Raise e -> e = TypeError.
Proof. destruct v; cbn; congruence. Qed.

Lemma accumulate_raises a p e : accumulate a p = Raise e -> e = TypeError.
Proof.
  unfold accumulate.
  destruct (truthy (rain_three_hours p)).
  - destruct (number (rain_three_hours p)) eqn:R; cbn;
      [|intros [= <-]; eauto using number_raises].
    destruct (number (temp p)) eqn:T; cbn;
      [|intros [= <-]; eauto using number_raises].
    destruct (number (humidity p)) eqn:H; cbn;
      [discriminate|intros [= <-]; eauto using number_raises].
  - cbn.
    destruct (number (temp p)) eqn:T; cbn;
      [|intros [= <-]; eauto using number_raises].
    destruct (number (humidity p)) eqn:H; cbn;
      [discriminate|intros [= <-]; eauto using number_raises].
Qed.

Lemma for_each_raises ps : forall a e, for_each ps a = Raise e -> e = TypeError.
Proof.
  induction ps as [|p ps IH]; intros a e; cbn; [discriminate|].
  destruct (accumulate a p) eqn:A; cbn; [apply IH|].
  intros [= <-]. eauto using accumulate_raises.
Qed.

(** [0 < 0.45 * steps] for each of the 39 step counts a lookahead in range
    can give. *)
Lemma need_positive n :
  (1 <= n <= 39)%Z -> (0 <? 0.45 * float_of_int n)%float = true.
Proof.
  intros Hn.
  assert (All : forallb (fun k => (0 <? 0.45 * float_of_int (Z.of_nat k))%float)
                        (seq 1 39) = true) by (vm_compute; reflexivity).
  rewrite forallb_forall in All.
  specialize (All (Z.to_nat n)). rewrite Z2Nat.id in All by lia.
  apply All, in_seq. lia.
Qed.

Lemma firstn_same_but_humidity n ps qs :
  Forall2 same_but_humidity ps qs ->
  Forall2 same_but_humidity (firstn n ps) (firstn n qs).
Proof.
  intros H; revert n; induction H; intros [|n]; cbn; auto.
Qed.

Lemma sum_from_same_but_humidity ps qs :
  Forall2 same_but_humidity ps qs -> forall s, sum_from s ps = sum_from s qs.
Proof.
  unfold sum_from.
  induction 1 as [|p q ps qs Hpq _ IH]; intros s; cbn; [reflexivity|].
  destruct Hpq as (_ & _ & _ & _ & _ & _ & _ & R).
  unfold rainThreeHours at 2 4. rewrite R. apply IH.
Qed.

Lemma max_from_same_but_humidity ps qs :
  Forall2 same_but_humidity ps qs -> forall m, max_from m ps = max_from m qs.
Proof.
  unfold max_from.
  induction 1 as [|p q ps qs Hpq _ IH]; intros m; cbn; [reflexivity|].
  destruct Hpq as (_ & T & _).
  unfold temperature at 2 4. rewrite T. apply IH.
Qed.

(** The maximum stays at its start of 0 while every temperature is
    below zero. *)
Lemma max_from_all_negative ps :
  (forall p, In p ps -> exists t, temp p = JNum t /\ (t <? 0)%float = true) ->
  max_from 0 ps = 0%float.
Proof.
  unfold max_from.
  induction ps as [|p ps IH]; intros H; cbn; [reflexivity|].
  destruct (H p (or_introl eq_refl)) as (t & Ht & Hneg).
  unfold temperature at 2. rewrite Ht. cbn.
  rewrite (ltb_zero_asym t Hneg). apply IH.
  intros q Hq. apply H. now right.
Qed.

(** The running maximum is above [c] exactly when its start or one of the
    temperatures is. *)
Lemma max_from_above c ps : forall m,
  not_nan m = true ->
  (c <? max_from m ps)%float = (c <? m)%float || existsb (above c) ps.
Proof.
  unfold max_from.
  induction ps as [|p ps IH]; intros m Nm; cbn; [now rewrite orb_false_r|].
  unfold above at 1. destruct (temperature p) as [t|]; cbn; [|now apply IH].
  destruct (m <? t)%float eqn:L.
  - rewrite IH by (apply (ltb_not_nan m t L)).
    destruct (c <? m)%float eqn:Cm; [|reflexivity].
    now rewrite (ltb_trans c m t Cm L).
  - rewrite IH by exact Nm.
    destruct (c <? t)%float eqn:Ct; [|reflexivity].
    now rewrite (ltb_not_below m t c Nm L Ct).
Qed.

Lemma maxTemp_above_30 ps : (30 <? maxTemp ps)%float = existsb (above 30) ps.
Proof.
  unfold maxTemp. now rewrite max_from_above.
Qed.

End EngineFacts.

(* ===================================================================== *)
(** * Properties of [make_decision]                                      *)
(* ===================================================================== *)

Module Decision.
Import weather controller DecisionEngine Binary64 FloatFacts EngineFacts Samples.

(** The scenarios of the specification's test list. *)
Example dry_soil_no_rain :
  make_decision {| data := [entry 20 50 empty_dict] |} 30 45 3 = Return true.
Proof. vm_compute. reflexivity. Qed.

Example dry_soil_enough_rain :
  make_decision {| data := [entry 20 50 (JNum 1.0)] |} 30 45 3 = Return false.
Proof. vm_compute. reflexivity. Qed.

Example moist_soil_hot_dry :
  make_decision {| data := [entry 32 50 empty_dict] |} 50 45 3 = Return true.
Proof. vm_compute. reflexivity. Qed.

Example moist_soil_hot_but_wet_enough :
  make_decision {| data := [entry 32 50 empty_dict] |} 65 45 3 = Return false.
Proof. vm_compute. reflexivity. Qed.

(** C1. Dry soil: when [soilMoisture < moistureThreshold] and the
    lookahead is in [3,120), [make_decision] returns true exactly when
    the sum of the present three-hour rain values over the first
    [steps = lookaheadHours // 3] entries is below [0.45 * steps]. *)
Theorem dry_soil_decision (f : Forecast) (sm mt la : Z) :
  typed_forecast f = true ->
  (sm < mt)%Z ->
  (3 <= la < 120)%Z ->
  make_decision f sm mt la =
    Return (totalRainfall (prefix f (steps la)) <? 0.45 * float_of_int (steps la))%float.
Proof.
  intros Hty Hdry Hla.
  rewrite (make_decision_typed f sm mt la Hty Hla). unfold rule, littleRain.
  apply Z.ltb_lt in Hdry. now rewrite Hdry.
Qed.

Lemma dry_soil_decision_witness :
  typed_forecast three_steps = true /\ (30 < 45)%Z /\ (3 <= 7 < 120)%Z /\
  make_decision three_steps 30 45 7 =
    Return (totalRainfall (prefix three_steps (steps 7)) <? 0.45 * float_of_int (steps 7))%float.
Proof.
  split; [reflexivity|]. split; [lia|]. split; [lia|].
  apply (dry_soil_decision three_steps 30 45 7); [reflexivity | lia | lia].
Defined.

(** C2. Moist soil: when [soilMoisture >= moistureThreshold] and the
    lookahead is in [3,120), [make_decision] returns true exactly when
    [maxTemp > 30], [totalRainfall < 0.45 * steps] and
    [soilMoisture < 60] all hold, the maximum and the sum being taken
    over the first [steps] entries and the maximum starting at 0; that
    maximum is above 30 exactly when one of those entries is. *)
Theorem moist_soil_decision (f : Forecast) (sm mt la : Z) :
  typed_forecast f = true ->
  (sm >= mt)%Z ->
  (3 <= la < 120)%Z ->
  make_decision f sm mt la =
    Return ((30 <? maxTemp (prefix f (steps la)))%float
            && (totalRainfall (prefix f (steps la)) <? 0.45 * float_of_int (steps la))%float
            && (sm <? 60)%Z) /\
  (30 <? maxTemp (prefix f (steps la)))%float = existsb (above 30) (prefix f (steps la)).
Proof.
  intros Hty Hmoist Hla. split; [|apply maxTemp_above_30].
  rewrite (make_decision_typed f sm mt la Hty Hla). unfold rule, littleRain.
  destruct (sm <? mt)%Z eqn:E; [apply Z.ltb_lt in E; lia | reflexivity].
Qed.

Lemma moist_soil_decision_witness :
  typed_forecast hot_step = true /\ (50 >= 45)%Z /\ (3 <= 3 < 120)%Z /\
  make_decision hot_step 50 45 3 =
    Return ((30 <? maxTemp (prefix hot_step (steps 3)))%float
            && (totalRainfall (prefix hot_step (steps 3)) <? 0.45 * float_of_int (steps 3))%float
            && (50 <? 60)%Z) /\
  (30 <? maxTemp (prefix hot_step (steps 3)))%float
    = existsb (above 30) (prefix hot_step (steps 3)).
Proof.
  split; [reflexivity|]. split; [lia|]. split; [lia|].
  apply (moist_soil_decision hot_step 50 45 3); [reflexivity | lia | lia].
Defined.

(** C3. [make_decision] fails with the error of its assertion, the
    specification's InvalidParameterError, exactly when the lookahead is
    outside [3,120): it raises for 0, 1, 2, 120 and above instead of
    clamping, and inside the range it never raises that error. *)
Theorem lookahead_out_of_range (f : Forecast) (sm mt la : Z) :
  (exists e, make_decision f sm mt la = Raise e /\ classify e = InvalidParameterError)
  <-> ~ (3 <= la < 120)%Z.
Proof.
  unfold make_decision. split.
  - intros (e & He & Hc) Hla.
    rewrite (in_range_guard la Hla) in He.
    destruct (for_each _ start) eqn:F; cbn in He.
    + repeat match type of He with context [if ?c then _ else _] =>
               destruct c end; discriminate.
    + injection He as <-. apply for_each_raises in F. subst. discriminate.
  - intros Hla. exists AssertionError. split; [|reflexivity].
    destruct (3 <=? la)%Z eqn:L; destruct (la <? 120)%Z eqn:U; cbn; try reflexivity.
    apply Z.leb_le in L. apply Z.ltb_lt in U. lia.
Qed.

Example lookahead_0_1_2_120 :
  forall f sm mt,
    make_decision f sm mt 0 = Raise AssertionError /\
    make_decision f sm mt 1 = Raise AssertionError /\
    make_decision f sm mt 2 = Raise AssertionError /\
    make_decision f sm mt 120 = Raise AssertionError.
Proof. intros. repeat split. Qed.

(** C4. A forecast with no more entries than [steps], the empty one
    included: the slice is the whole sequence, and [make_decision]
    returns (it raises nothing, an IndexError included) the rule's answer
    for the sum and the maximum over all the entries. *)
Theorem short_forecast_uses_all (f : Forecast) (sm mt la : Z) :
  typed_forecast f = true ->
  (3 <= la < 120)%Z ->
  (Z.of_nat (List.length (data f)) <= steps la)%Z ->
  slice_to (data f) (la / 3) = data f /\
  make_decision f sm mt la =
    Return (rule sm mt (steps la) (totalRainfall (data f)) (maxTemp (data f))).
Proof.
  intros Hty Hla Hlen.
  assert (P : prefix f (steps la) = data f)
    by (unfold prefix; apply firstn_all2; lia).
  split.
  - now rewrite (slice_to_prefix f la Hla).
  - now rewrite (make_decision_typed f sm mt la Hty Hla), P.
Qed.

Lemma short_forecast_uses_all_witness :
  typed_forecast hot_step = true /\ (3 <= 24 < 120)%Z /\
  (Z.of_nat (List.length (data hot_step)) <= steps 24)%Z /\
  slice_to (data hot_step) (24 / 3) = data hot_step /\
  make_decision hot_step 50 45 24 =
    Return (rule 50 45 (steps 24) (totalRainfall (data hot_step)) (maxTemp (data hot_step))).
Proof.
  split; [reflexivity|]. split; [lia|]. split; [cbn; lia|].
  apply (short_forecast_uses_all hot_step 50 45 24); [reflexivity | lia | cbn; lia].
Defined.

(** C6. Humidity does not reach the decision: two forecasts whose
    entries agree in every field but the humidity get the same boolean,
    whatever the moistures and the lookahead in [3,120). *)
Theorem humidity_is_ignored (f1 f2 : Forecast) (sm mt la : Z) :
  typed_forecast f1 = true ->
  typed_forecast f2 = true ->
  Forall2 same_but_humidity (data f1) (data f2) ->
  (3 <= la < 120)%Z ->
  exists b : bool,
    make_decision f1 sm mt la = Return b /\ make_decision f2 sm mt la = Return b.
Proof.
  intros H1 H2 Hsame Hla.
  rewrite (make_decision_typed f1 sm mt la H1 Hla).
  rewrite (make_decision_typed f2 sm mt la H2 Hla).
  assert (P : Forall2 same_but_humidity (prefix f1 (steps la)) (prefix f2 (steps la)))
    by (apply firstn_same_but_humidity; exact Hsame).
  unfold totalRainfall, maxTemp.
  rewrite (sum_from_same_but_humidity _ _ P), (max_from_same_but_humidity _ _ P).
  eexists. split; reflexivity.
Qed.

Lemma humidity_is_ignored_witness :
  typed_forecast three_steps = true /\ typed_forecast three_steps_damp = true /\
  Forall2 same_but_humidity (data three_steps) (data three_steps_damp) /\
  (3 <= 9 < 120)%Z /\
  exists b : bool,
    make_decision three_steps 30 45 9 = Return b /\
    make_decision three_steps_damp 30 45 9 = Return b.
Proof.
  assert (S : Forall2 same_but_humidity (data three_steps) (data three_steps_damp))
    by (repeat constructor).
  split; [reflexivity|]. split; [reflexivity|]. split; [exact S|]. split; [lia|].
  apply (humidity_is_ignored three_steps three_steps_damp 30 45 9);
    [reflexivity | reflexivity | exact S | lia].
Defined.

(** C9. The maximum starts at 0: when every temperature of the prefix is
    below zero the loop ends with [max_temp = 0], which is none of the
    temperatures, and on moist soil ([soilMoisture >= moistureThreshold])
    [make_decision] returns false. *)
Theorem all_negative_forecast (f : Forecast) (sm mt la : Z) :
  typed_forecast f = true ->
  (3 <= la < 120)%Z ->
  (forall p, In p (prefix f (steps la)) ->
     exists t, temp p = JNum t /\ (t <? 0)%float = true) ->
  (exists a, for_each (slice_to (data f) (la / 3)) start = Return a /\
             max_temp a = 0%float /\
             forall p, In p (prefix f (steps la)) -> temp p <> JNum (max_temp a)) /\
  maxTemp (prefix f (steps la)) = 0%float /\
  ((sm >= mt)%Z -> make_decision f sm mt la = Return false).
Proof.
  intros Hty Hla Hneg.
  pose proof (max_from_all_negative _ Hneg) as M.
  split; [|split; [exact M|]].
  - rewrite (slice_to_prefix f la Hla).
    destruct (for_each_typed (prefix f (steps la)) start 0%float) as (a & E & _ & Hm).
    + now apply typed_firstn.
    + apply alike_refl.
    + exists a. cbn [max_temp start] in Hm. rewrite M in Hm.
      split; [exact E|]. split; [exact Hm|].
      intros p Hp Heq. destruct (Hneg p Hp) as (t & Ht & Hlt).
      rewrite Ht, Hm in Heq. injection Heq as ->. discriminate Hlt.
  - intros Hmoist.
    rewrite (make_decision_typed f sm mt la Hty Hla). unfold rule.
    destruct (sm <? mt)%Z eqn:E; [apply Z.ltb_lt in E; lia|].
    unfold maxTemp. now rewrite M.
Qed.

Lemma all_negative_forecast_witness :
  typed_forecast frost = true /\ (3 <= 6 < 120)%Z /\
  (forall p, In p (prefix frost (steps 6)) ->
     exists t, temp p = JNum t /\ (t <? 0)%float = true) /\
  maxTemp (prefix frost (steps 6)) = 0%float /\
  make_decision frost 50 45 6 = Return false.
Proof.
  assert (N : forall p, In p (prefix frost (steps 6)) ->
                exists t, temp p = JNum t /\ (t <? 0)%float = true).
  { cbn. intros p [<-|[<-|[]]]; eexists; split; reflexivity. }
  destruct (all_negative_forecast frost 50 45 6) as (_ & M & D);
    [reflexivity | lia | exact N |].
  split; [reflexivity|]. split; [lia|]. split; [exact N|].
  split; [exact M | apply D; lia].
Defined.

(** C10. An empty forecast: for a lookahead in [3,120), [make_decision]
    returns true exactly when [soilMoisture < moistureThreshold]; the sum
    and the maximum are both 0, dry soil is watered since
    [0 < 0.45 * steps], and moist soil is not since 0 is not above 30. *)
Theorem empty_forecast_decision (f : Forecast) (sm mt la : Z) :
  data f = [] ->
  (3 <= la < 120)%Z ->
  totalRainfall (prefix f (steps la)) = 0%float /\
  maxTemp (prefix f (steps la)) = 0%float /\
  make_decision f sm mt la = Return (sm <? mt)%Z.
Proof.
  intros He Hla.
  assert (P : prefix f (steps la) = []) by (unfold prefix; rewrite He; apply firstn_nil).
  rewrite P. split; [reflexivity|]. split; [reflexivity|].
  rewrite (make_decision_typed f sm mt la); [|unfold typed_forecast; now rewrite He|exact Hla].
  rewrite P. unfold rule, littleRain.
  change (totalRainfall []) with 0%float. change (maxTemp []) with 0%float.
  rewrite need_positive by (apply steps_in_range; exact Hla).
  destruct (sm <? mt)%Z; reflexivity.
Qed.

Lemma empty_forecast_decision_witness :
  (3 <= 3 < 120)%Z /\
  make_decision {| data := [] |} 30 45 3 = Return true /\
  make_decision {| data := [] |} 50 45 3 = Return false.
Proof.
  split; [lia|]. split.
  - apply (empty_forecast_decision {| data := [] |} 30 45 3); [reflexivity | lia].
  - apply (empty_forecast_decision {| data := [] |} 50 45 3); [reflexivity | lia].
Defined.

End Decision.

(* ===================================================================== *)
(** * Properties of [DataPoint] and of [get_weather]                     *)
(* ===================================================================== *)

Module Refresh.
Import weather controller DecisionEngine Samples.

Lemma bind_returns {A B : Type} (c : result A) (k : A -> result B) (b : B) :
  bind c k = Return b -> exists a, c = Return a /\ k a = Return b.
Proof. destruct c; cbn; [eauto | discriminate]. Qed.

(** A constructed DataPoint holds in its rain fields what the two
    [.get] chains found. *)
Lemma DataPoint_init_rain record p :
  DataPoint_init record = Return p ->
  (r <- get record "rain" empty_dict ;; get r "1h" empty_dict) = Return (rain_last_hour p) /\
  (r <- get record "rain" empty_dict ;; get r "3h" empty_dict) = Return (rain_three_hours p).
Proof.
  unfold DataPoint_init. intros H.
  repeat (apply bind_returns in H as (? & ? & H)).
  injection H as <-. cbn. auto.
Qed.

(** [get_weather], step by step: where it stops, and the object it
    leaves. *)
Lemma get_weather_steps loc key un cnt net self :
  get_weather loc key un cnt net self =
    match send net (CurrentWeather loc key un) with
    | Raise e => (Raise e, self)
    | Return current_ =>
    match send net (FiveDayForecast loc key un cnt) with
    | Raise e => (Raise e, self)
    | Return forecast_ =>
    match decode current_ with
    | Raise e => (Raise e, self)
    | Return current_json =>
    match decode forecast_ with
    | Raise e => (Raise e, self)
    | Return forecast_json =>
    match not_valid current_json forecast_json with
    | Raise e => (Raise e, self)
    | Return bad =>
    match (if bad then raise_not_valid current_json forecast_json else Return tt) with
    | Raise e => (Raise e, self)
    | Return _ =>
    match DataPoint_init current_json with
    | Raise e => (Raise e, self)
    | Return c =>
    match Forecast_init forecast_json with
    | Raise e => (Raise e, set_current self c)
    | Return f => (Return tt, set_forecast (set_current self c) f)
    end end end end end end end end.
Proof.
  unfold get_weather, and_then, pure, assign_current, assign_forecast.
  repeat match goal with
         | |- context [match ?c with Return _ => _ | Raise _ => _ end] =>
             destruct c; try reflexivity
         end.
Qed.

(** The message of the [ValueError] is built first, and building it can
    fail; either way an exception comes out. *)
Lemma raise_not_valid_raises cj fj :
  exists e, raise_not_valid cj fj = Raise e /\ classify e = DataFormatError.
Proof.
  unfold raise_not_valid.
  destruct cj as [| | | | |c]; cbn; try (eexists; split; reflexivity).
  destruct (lookup "cod" c); cbn;
    (destruct fj as [| | | | |f]; cbn; try (eexists; split; reflexivity);
     destruct (lookup "cod" f); cbn; eexists; split; reflexivity).
Qed.

(** Without two success codes the condition of the [if] holds, or
    reading a code fails. *)
Lemma not_valid_without_success cj fj :
  current_succeeded cj && forecast_succeeded fj = false ->
  not_valid cj fj = Return true \/
  exists e, not_valid cj fj = Raise e /\ classify e = DataFormatError.
Proof.
  unfold not_valid, current_succeeded, forecast_succeeded. intros H.
  destruct (truthy cj); cbn; [|now left].
  destruct (truthy fj); cbn; [|now left].
  destruct cj as [| | | | |c]; cbn; try (right; eexists; split; reflexivity).
  destruct (lookup "cod" c) as [cc|]; cbn; [|right; eexists; split; reflexivity].
  destruct (ne_number cc 200); cbn in *; [now left|].
  destruct fj as [| | | | |f]; cbn; try (right; eexists; split; reflexivity).
  destruct (lookup "cod" f) as [fc|]; cbn; [|right; eexists; split; reflexivity].
  destruct (ne_string fc "200"); [now left | discriminate H].
Qed.

(** Without two success codes [get_weather] raises before it assigns. *)
Lemma get_weather_without_success loc key un cnt net self cj fj :
  net (CurrentWeather loc key un) = Answer (Some cj) ->
  net (FiveDayForecast loc key un cnt) = Answer (Some fj) ->
  current_succeeded cj && forecast_succeeded fj = false ->
  exists e, get_weather loc key un cnt net self = (Raise e, self) /\
            classify e = DataFormatError.
Proof.
  intros C F H. rewrite get_weather_steps. unfold send. rewrite C, F. cbn.
  destruct (not_valid_without_success cj fj H) as [->|(e & -> & Hc)].
  - destruct (raise_not_valid_raises cj fj) as (e & -> & Hc). eauto.
  - eauto.
Qed.

Lemma accumulate_absent_rain a a' p :
  rain_three_hours p = empty_dict ->
  accumulate a p = Return a' -> total_rainfall a' = total_rainfall a.
Proof.
  unfold accumulate. intros ->. cbn.
  destruct (number (temp p)); cbn; [|discriminate].
  destruct (number (humidity p)); cbn; [|discriminate].
  now intros [= <-].
Qed.

(** C7. A DataPoint built from a record without a "rain" object holds
    the absent value (the empty dict, which is no number and so not
    zero) in both rain fields and adds nothing to the rainfall total of
    [make_decision]; a number under "1h" or "3h", zero included, is
    held as it is. *)
Theorem rain_fields_of_record (entries : list (string * json)) (p : DataPoint) :
  DataPoint_init (JDict entries) = Return p ->
  (lookup "rain" entries = None ->
     rain_last_hour p = empty_dict /\ rain_three_hours p = empty_dict /\
     (forall x, rain_last_hour p <> JNum x) /\
     (forall x, rain_three_hours p <> JNum x) /\
     (forall a a', accumulate a p = Return a' -> total_rainfall a' = total_rainfall a) /\
     (forall s, sum_from s [p] = s)) /\
  (forall r x, lookup "rain" entries = Some (JDict r) ->
     lookup "1h" r = Some (JNum x) -> rain_last_hour p = JNum x) /\
  (forall r x, lookup "rain" entries = Some (JDict r) ->
     lookup "3h" r = Some (JNum x) -> rain_three_hours p = JNum x).
Proof.
  intros H. apply DataPoint_init_rain in H as [H1 H3]. cbn in H1, H3.
  split; [|split].
  - intros N. rewrite N in H1, H3. cbn in H1, H3.
    injection H1 as H1. injection H3 as H3.
    repeat split; auto.
    + intros x E. rewrite <- H1 in E. discriminate E.
    + intros x E. rewrite <- H3 in E. discriminate E.
    + intros a a'. now apply accumulate_absent_rain.
    + intros s. cbn. unfold rainThreeHours. now rewrite <- H3.
  - intros r x R L. rewrite R in H1. cbn in H1. rewrite L in H1. congruence.
  - intros r x R L. rewrite R in H3. cbn in H3. rewrite L in H3. congruence.
Qed.

Lemma rain_fields_of_record_witness :
  DataPoint_init dry_record = Return dry_point /\
  rain_last_hour dry_point = empty_dict /\ rain_three_hours dry_point = empty_dict /\
  DataPoint_init wet_record = Return wet_point /\
  rain_last_hour wet_point = JNum 0 /\ rain_three_hours wet_point = JNum 1.5.
Proof.
  assert (D : DataPoint_init dry_record = Return dry_point) by reflexivity.
  assert (W : DataPoint_init wet_record = Return wet_point) by reflexivity.
  destruct (rain_fields_of_record _ dry_point D) as ((A1 & A3 & _) & _).
  { reflexivity. }
  destruct (rain_fields_of_record _ wet_point W) as (_ & B1 & B3).
  repeat split; auto.
Defined.

(** A refresh with two good answers replaces both held values. *)
Example refresh_replaces_both :
  get_weather "Eindhoven" "key" "metric" 8 (answers dry_record forecast_response) held
  = (Return tt,
     set_forecast (set_current held dry_point) {| data := [wet_point] |}).
Proof. rewrite get_weather_steps. reflexivity. Qed.

(** An unreachable provider leaves the object as it was. *)
Example refresh_unreachable :
  get_weather "Eindhoven" "key" "metric" 8 (fun _ => Unreachable) held
  = (Raise ConnectionError, held).
Proof. reflexivity. Qed.

(** C5, as the code has it. A [get_weather] that returns has replaced
    both the current DataPoint and the Forecast by the ones built from
    the two answers. A [get_weather] that raises leaves the Forecast as
    it was, and leaves the whole object as it was unless both codes
    reported success, the current DataPoint was built, and it is the
    construction of the Forecast that raised. *)
Theorem refresh_outcome (loc key un : string) (cnt : Z) (net : provider)
    (self : WeatherAPI) :
  match get_weather loc key un cnt net self with
  | (Return _, self') =>
      exists cj fj c f,
        net (CurrentWeather loc key un) = Answer (Some cj) /\
        net (FiveDayForecast loc key un cnt) = Answer (Some fj) /\
        DataPoint_init cj = Return c /\ Forecast_init fj = Return f /\
        self' = set_forecast (set_current self c) f
  | (Raise e, self') =>
      forecast self' = forecast self /\
      (self' = self \/
       exists cj fj c,
         net (CurrentWeather loc key un) = Answer (Some cj) /\
         net (FiveDayForecast loc key un cnt) = Answer (Some fj) /\
         current_succeeded cj = true /\ forecast_succeeded fj = true /\
         DataPoint_init cj = Return c /\ Forecast_init fj = Raise e)
  end.
Proof.
  destruct (net (CurrentWeather loc key un)) as [|[cj|]] eqn:C;
    [rewrite get_weather_steps; unfold send; rewrite C; cbn; auto | |
     rewrite get_weather_steps; unfold send; rewrite C; cbn;
     destruct (net (FiveDayForecast loc key un cnt)); cbn; auto].
  destruct (net (FiveDayForecast loc key un cnt)) as [|[fj|]] eqn:F;
    [rewrite get_weather_steps; unfold send; rewrite C, F; cbn; auto | |
     rewrite get_weather_steps; unfold send; rewrite C, F; cbn; auto].
  destruct (current_succeeded cj && forecast_succeeded fj) eqn:B.
  - apply andb_prop in B as [Bc Bf].
    rewrite get_weather_steps. unfold send. rewrite C, F. cbn.
    destruct (not_valid cj fj) as [bad|]; auto.
    destruct (if bad then raise_not_valid cj fj else Return tt); auto.
    destruct (DataPoint_init cj) as [c|] eqn:D; auto.
    destruct (Forecast_init fj) as [f|] eqn:E.
    + exists cj, fj, c, f. auto.
    + split; [reflexivity|]. right. exists cj, fj, c. auto 10.
  - destruct (get_weather_without_success loc key un cnt net self cj fj C F B)
      as (e & -> & _). auto.
Qed.

(** C5 as stated fails: the current weather answers with a good record,
    the forecast answers with code "200" but no "list"; [get_weather]
    raises a KeyError after it has replaced the current DataPoint. *)
Lemma refresh_partial_update :
  let out := get_weather "Eindhoven" "key" "metric" 8
               (answers dry_record forecast_without_list) held in
  fst out = Raise KeyError /\
  current (snd out) = Some dry_point /\
  current (snd out) <> current held /\
  forecast (snd out) = forecast held.
Proof.
  cbv zeta. rewrite get_weather_steps.
  repeat split.
  intros H. apply (f_equal (option_map city_name)) in H. discriminate H.
Qed.

(** C8. Given the two answers of the provider: [get_weather] returns
    only if the current weather reports the code 200 and the forecast
    the code "200"; if either does not, [get_weather] raises an exception
    of the DataFormatError kind and leaves the object as it was. *)
Theorem refresh_needs_both_codes (loc key un : string) (cnt : Z) (net : provider)
    (self : WeatherAPI) (cj fj : json) :
  net (CurrentWeather loc key un) = Answer (Some cj) ->
  net (FiveDayForecast loc key un cnt) = Answer (Some fj) ->
  (fst (get_weather loc key un cnt net self) = Return tt ->
     current_succeeded cj = true /\ forecast_succeeded fj = true) /\
  (current_succeeded cj && forecast_succeeded fj = false ->
     exists e, get_weather loc key un cnt net self = (Raise e, self) /\
               classify e = DataFormatError).
Proof.
  intros C F.
  pose proof (get_weather_without_success loc key un cnt net self cj fj C F) as Fails.
  split; [|exact Fails].
  intros R.
  destruct (current_succeeded cj && forecast_succeeded fj) eqn:B.
  - now apply andb_prop in B.
  - destruct (Fails eq_refl) as (e & E & _). rewrite E in R. discriminate R.
Qed.

Lemma refresh_needs_both_codes_witness :
  answers dry_record not_found (CurrentWeather "Eindhoven" "key" "metric")
    = Answer (Some dry_record) /\
  answers dry_record not_found (FiveDayForecast "Eindhoven" "key" "metric" 8)
    = Answer (Some not_found) /\
  current_succeeded dry_record && forecast_succeeded not_found = false /\
  exists e, get_weather "Eindhoven" "key" "metric" 8 (answers dry_record not_found) held
              = (Raise e, held) /\
            classify e = DataFormatError.
Proof.
  split; [reflexivity|]. split; [reflexivity|]. split; [reflexivity|].
  apply (refresh_needs_both_codes "Eindhoven" "key" "metric" 8
           (answers dry_record not_found) held dry_record not_found);
    reflexivity.
Defined.

End Refresh.

(* ===================================================================== *)
(** * Construction of DataPoints and Forecasts                           *)
(* ===================================================================== *)

Module Construction.
Import weather Shapes Samples.

Lemma bind_raises {A B : Type} (c : result A) (k : A -> result B) (e : exn) :
  bind c k = Raise e -> c = Raise e \/ exists a, c = Return a /\ k a = Raise e.
Proof. destruct c; cbn; [eauto | intros [= <-]; auto]. Qed.

Lemma subscript_returns v k x :
  subscript v k = Return x -> exists d, v = JDict d /\ lookup k d = Some x.
Proof.
  destruct v; cbn; try discriminate.
  destruct (lookup k entries) eqn:L; [|discriminate].
  intros [= <-]. eauto.
Qed.

Lemma get_from_dict d k default x :
  get (JDict d) k default = Return x ->
  x = match lookup k d with Some y => y | None => default end.
Proof. cbn. destruct (lookup k d); now intros [= <-]. Qed.

Lemma first_item_of_no_list : first_item (JList []) = Raise IndexError.
Proof. reflexivity. Qed.

(** The three reads under "weather" all go through the same first item. *)
Lemma weather_read entries k x :
  (w <- get (JDict entries) "weather" (JList []) ;;
   w0 <- first_item w ;; subscript w0 k) = Return x ->
  exists w d, lookup "weather" entries = Some w /\
              first_item w = Return (JDict d) /\ lookup k d = Some x.
Proof.
  cbn. destruct (lookup "weather" entries) as [w|]; cbn; [|discriminate].
  destruct (first_item w) as [w0|] eqn:F; cbn; [|discriminate].
  intros S. apply subscript_returns in S as (d & -> & L). eauto.
Qed.

Lemma main_read entries k x :
  (m <- get (JDict entries) "main" empty_dict ;; subscript m k) = Return x ->
  exists m, lookup "main" entries = Some (JDict m) /\ lookup k m = Some x.
Proof.
  cbn. destruct (lookup "main" entries) as [m|]; cbn; [|discriminate].
  intros S. apply subscript_returns in S as (d & -> & L). eauto.
Qed.

(** X1. A DataPoint that was constructed holds the record's own values:
    the record is a JSON object with a numeric "dt", an object "main"
    with "temp" and "humidity", and a "weather" whose first item is an
    object with "id", "description" and "icon"; each attribute is the
    value found there, and [city_name] is "name" or the empty dict. *)
Theorem DataPoint_init_holds_record (record : json) (p : DataPoint) :
  DataPoint_init record = Return p ->
  exists entries v m w w0,
    record = JDict entries /\
    lookup "dt" entries = Some v /\ fromtimestamp v = Return (dt p) /\
    lookup "main" entries = Some (JDict m) /\
    lookup "temp" m = Some (temp p) /\ lookup "humidity" m = Some (humidity p) /\
    lookup "weather" entries = Some w /\ first_item w = Return (JDict w0) /\
    lookup "id" w0 = Some (id p) /\
    lookup "description" w0 = Some (description p) /\
    lookup "icon" w0 = Some (icon p) /\
    city_name p = match lookup "name" entries with Some n => n | None => empty_dict end.
Proof.
  unfold DataPoint_init. intros H.
  apply Refresh.bind_returns in H as (dt_ & Hdt & H).
  apply Refresh.bind_returns in Hdt as (v & Hv & Hts).
  apply subscript_returns in Hv as (entries & -> & Lv).
  apply Refresh.bind_returns in H as (t & Ht & H).
  apply Refresh.bind_returns in H as (h & Hh & H).
  apply Refresh.bind_returns in H as (i & Hi & H).
  apply Refresh.bind_returns in H as (d & Hd & H).
  apply Refresh.bind_returns in H as (ic & Hic & H).
  apply Refresh.bind_returns in H as (n & Hn & H).
  apply Refresh.bind_returns in H as (r1 & _ & H).
  apply Refresh.bind_returns in H as (r3 & _ & H).
  injection H as <-. cbn [dt temp humidity id description icon city_name].
  apply main_read in Ht as (m & Lm & Lt).
  apply main_read in Hh as (m' & Lm' & Lh).
  rewrite Lm in Lm'. injection Lm' as <-.
  apply weather_read in Hi as (w & w0 & Lw & Fw & Li).
  apply weather_read in Hd as (w' & w0' & Lw' & Fw' & Ld).
  apply weather_read in Hic as (w'' & w0'' & Lw'' & Fw'' & Lic).
  rewrite Lw in Lw', Lw''. injection Lw' as <-. injection Lw'' as <-.
  rewrite Fw in Fw', Fw''. injection Fw' as <-. injection Fw'' as <-.
  apply get_from_dict in Hn.
  exists entries, v, m, w, w0. repeat split; assumption.
Qed.

Lemma DataPoint_init_holds_record_witness :
  DataPoint_init wet_record = Return wet_point /\
  exists entries v m w w0,
    wet_record = JDict entries /\
    lookup "dt" entries = Some v /\ fromtimestamp v = Return (dt wet_point) /\
    lookup "main" entries = Some (JDict m) /\
    lookup "temp" m = Some (temp wet_point) /\
    lookup "humidity" m = Some (humidity wet_point) /\
    lookup "weather" entries = Some w /\ first_item w = Return (JDict w0) /\
    lookup "id" w0 = Some (id wet_point) /\
    lookup "description" w0 = Some (description wet_point) /\
    lookup "icon" w0 = Some (icon wet_point) /\
    city_name wet_point
      = match lookup "name" entries with Some n => n | None => empty_dict end.
Proof.
  split; [reflexivity|].
  apply (DataPoint_init_holds_record wet_record wet_point). reflexivity.
Defined.



(** X3. [__init__] reads a record through five keys only ("dt", "main",
    "weather", "name", "rain"): two JSON objects that agree on them give
    the same DataPoint or the same exception, whatever else they hold. *)
Theorem DataPoint_init_reads_five_keys (e1 e2 : list (string * json)) :
  (forall k, In k read_keys -> lookup k e1 = lookup k e2) ->
  DataPoint_init (JDict e1) = DataPoint_init (JDict e2).
Proof.
  intros H. unfold DataPoint_init, subscript, get.
  rewrite (H "dt"), (H "main"), (H "weather"), (H "name"), (H "rain");
    try reflexivity; cbn; auto 10.
Qed.

Lemma DataPoint_init_reads_five_keys_witness :
  DataPoint_init (record (JStr "404") []) = DataPoint_init dry_record.
Proof.
  apply (DataPoint_init_reads_five_keys
           [("cod", JStr "404"); ("dt", JNum 1700000000);
            ("main", JDict [("temp", JNum 21.5); ("humidity", JNum 60)]);
            ("weather", JList [JDict [("id", JNum 800);
                                      ("description", JStr "clear sky");
                                      ("icon", JStr "01d")]]);
            ("name", JStr "Eindhoven")]).
  intros k [<-|[<-|[<-|[<-|[<-|[]]]]]]; reflexivity.
Defined.

Lemma comprehension_returns {A B : Type} (f : A -> result B) xs ys :
  comprehension f xs = Return ys <-> Forall2 (fun x y => f x = Return y) xs ys.
Proof.
  revert ys. induction xs as [|x xs IH]; intros ys; cbn.
  - split; [intros [= <-]; constructor | intros H; inversion H; reflexivity].
  - split.
    + intros H. apply Refresh.bind_returns in H as (y & Hy & H).
      apply Refresh.bind_returns in H as (ys' & Hys & H).
      injection H as <-. constructor; [exact Hy | now apply IH].
    + intros H. inversion H as [|? y ? ys' Hy Hys]; subst.
      rewrite Hy. cbn. apply IH in Hys. now rewrite Hys.
Qed.

(** X4. A Forecast over a JSON array is constructed exactly when every
    item constructs, and then holds one DataPoint per item, in the
    array's order. *)
Theorem Forecast_init_one_per_item (entries : list (string * json))
    (items : list json) (ps : list DataPoint) :
  lookup "list" entries = Some (JList items) ->
  (Forecast_init (JDict entries) = Return {| data := ps |} <->
   Forall2 (fun item p => DataPoint_init item = Return p) items ps).
Proof.
  intros L. unfold Forecast_init. cbn. rewrite L. cbn.
  rewrite <- comprehension_returns.
  destruct (comprehension DataPoint_init items) as [qs|]; cbn; split;
    congruence.
Qed.

Lemma Forecast_init_one_per_item_witness :
  lookup "list" [("cod", JStr "200"); ("list", JList [wet_record; dry_record])]
    = Some (JList [wet_record; dry_record]) /\
  Forall2 (fun item p => DataPoint_init item = Return p)
          [wet_record; dry_record] [wet_point; dry_point].
Proof.
  split; [reflexivity|].
  apply (Forecast_init_one_per_item
           [("cod", JStr "200"); ("list", JList [wet_record; dry_record])]
           [wet_record; dry_record] [wet_point; dry_point]);
    reflexivity.
Defined.

Lemma comprehension_first_failure {A B : Type} (f : A -> result B)
    good bad rest e :
  Forall (fun x => returns (f x) = true) good ->
  f bad = Raise e ->
  comprehension f (good ++ bad :: rest) = Raise e.
Proof.
  intros G Hbad. induction G as [|x good Hx _ IH]; cbn.
  - now rewrite Hbad.
  - destruct (f x); [|discriminate]. cbn. now rewrite IH.
Qed.

(** X5. One bad item is enough: when the items before it construct and
    it raises, the Forecast is not constructed and the exception is that
    item's, whatever comes after it. *)
Theorem Forecast_init_first_failure (entries : list (string * json))
    (good : list json) (bad : json) (rest : list json) (e : exn) :
  lookup "list" entries = Some (JList (good ++ bad :: rest)) ->
  Forall (fun item => returns (DataPoint_init item) = true) good ->
  DataPoint_init bad = Raise e ->
  Forecast_init (JDict entries) = Raise e.
Proof.
  intros L G B. unfold Forecast_init. cbn. rewrite L. cbn.
  now rewrite (comprehension_first_failure DataPoint_init good bad rest e G B).
Qed.

Lemma Forecast_init_first_failure_witness :
  Forecast_init (JDict [("list", JList ([wet_record] ++ JDict [] :: [dry_record]))])
  = Raise KeyError.
Proof.
  apply (Forecast_init_first_failure _ [wet_record] (JDict []) [dry_record]);
    [reflexivity | repeat constructor | reflexivity].
Defined.

Lemma DataPoint_init_of_string s : DataPoint_init (JStr s) = Raise TypeError.
Proof. reflexivity. Qed.

(** X6. A "list" that is no JSON array: without the key the
    construction raises a KeyError; null, a bool or a number cannot be
    iterated, and a non-empty object or string is iterated into strings,
    so each of them raises a TypeError; only the empty object and the
    empty string pass, as a Forecast with no entries. *)
Theorem Forecast_init_without_array (entries : list (string * json)) :
  (lookup "list" entries = None -> Forecast_init (JDict entries) = Raise KeyError) /\
  (forall l, lookup "list" entries = Some l ->
     (forall items, l <> JList items) ->
     Forecast_init (JDict entries)
     = if empty_iterable l then Return {| data := [] |} else Raise TypeError).
Proof.
  unfold Forecast_init. cbn. split.
  - intros ->. reflexivity.
  - intros l -> N. cbn.
    destruct l as [| | |s|items|d]; cbn; try reflexivity.
    + destruct s; reflexivity.
    + now destruct (N items).
    + destruct d as [|[k v] d]; reflexivity.
Qed.

Lemma Forecast_init_without_array_witness :
  Forecast_init forecast_without_list = Raise KeyError /\
  Forecast_init (JDict [("list", JDict [("0", dry_record)])]) = Raise TypeError /\
  Forecast_init (JDict [("list", JDict [])]) = Return {| data := [] |}.
Proof.
  split; [|split].
  - apply (Forecast_init_without_array [("cod", JStr "200")]). reflexivity.
  - apply (Forecast_init_without_array [("list", JDict [("0", dry_record)])]
             ) with (l := JDict [("0", dry_record)]);
      [reflexivity | discriminate].
  - apply (Forecast_init_without_array [("list", JDict [])]) with (l := JDict []);
      [reflexivity | discriminate].
Defined.

End Construction.

(* ===================================================================== *)
(** * Refreshing the held data                                           *)
(* ===================================================================== *)

Module Refreshing.
Import weather DecisionEngine Shapes Samples.

Lemma raises_data_errors_bind {A B : Type} (c : result A) (k : A -> result B) :
  raises_data_errors c -> (forall a, raises_data_errors (k a)) ->
  raises_data_errors (bind c k).
Proof.
  intros Hc Hk e H. apply Construction.bind_raises in H as [H|(a & _ & H)];
    [now apply Hc | now apply (Hk a)].
Qed.

Lemma raises_data_errors_Return {A : Type} (a : A) : raises_data_errors (Return a).
Proof. intros e H. discriminate H. Qed.

Lemma raises_data_errors_subscript v k : raises_data_errors (subscript v k).
Proof.
  intros e. destruct v; cbn; try (intros [= <-]; cbn; tauto).
  destruct (lookup k entries); [discriminate | intros [= <-]; cbn; tauto].
Qed.

Lemma raises_data_errors_get v k d : raises_data_errors (get v k d).
Proof.
  intros e. destruct v; cbn; try (intros [= <-]; cbn; tauto).
  destruct (lookup k entries); discriminate.
Qed.

Lemma raises_data_errors_first_item v : raises_data_errors (first_item v).
Proof.
  intros e. destruct v as [| | |s|items|d]; cbn; try (intros [= <-]; cbn; tauto).
  - destruct s; [intros [= <-]; cbn; tauto | discriminate].
  - destruct items; [intros [= <-]; cbn; tauto | discriminate].
Qed.

Lemma raises_data_errors_fromtimestamp v : raises_data_errors (fromtimestamp v).
Proof.
  intros e. unfold fromtimestamp.
  destruct v; cbv beta iota delta [number bind];
    try (intros [= <-]; cbn; tauto).
  - destruct (is_nan (float_of_bool b)); [intros [= <-]; cbn; tauto|].
    destruct (is_infinity (float_of_bool b)); [intros [= <-]; cbn; tauto | discriminate].
  - destruct (is_nan x); [intros [= <-]; cbn; tauto|].
    destruct (is_infinity x); [intros [= <-]; cbn; tauto | discriminate].
Qed.

Lemma raises_data_errors_iterate v : raises_data_errors (iterate v).
Proof. intros e. destruct v; cbn; try discriminate; intros [= <-]; cbn; tauto. Qed.

Lemma raises_data_errors_comprehension {A B : Type} (f : A -> result B) xs :
  (forall x, raises_data_errors (f x)) -> raises_data_errors (comprehension f xs).
Proof.
  intros Hf. induction xs as [|x xs IH]; cbn.
  - apply raises_data_errors_Return.
  - apply raises_data_errors_bind; [apply Hf|]. intros y.
    apply raises_data_errors_bind; [exact IH|]. intros ys.
    apply raises_data_errors_Return.
Qed.

Ltac data_errors :=
  repeat first
    [ apply raises_data_errors_Return
    | apply raises_data_errors_subscript
    | apply raises_data_errors_get
    | apply raises_data_errors_first_item
    | apply raises_data_errors_fromtimestamp
    | apply raises_data_errors_iterate
    | apply raises_data_errors_bind; [|intros ?] ].

Lemma DataPoint_init_raises record : raises_data_errors (DataPoint_init record).
Proof. unfold DataPoint_init. data_errors. Qed.

Lemma Forecast_init_raises response : raises_data_errors (Forecast_init response).
Proof.
  unfold Forecast_init. data_errors.
  apply raises_data_errors_comprehension. exact DataPoint_init_raises.
Qed.


Lemma in_data_errors_not_connection e :
  In e [KeyError; IndexError; TypeError; AttributeError; ValueError; OverflowError] ->
  e <> ConnectionError.
Proof. cbn. intros H ->. intuition discriminate. Qed.

Lemma decode_raises body : raises_data_errors (decode body).
Proof. intros e. destruct body; cbn; [discriminate | intros [= <-]; cbn; tauto]. Qed.

Lemma not_valid_raises cj fj : raises_data_errors (not_valid cj fj).
Proof.
  unfold not_valid.
  destruct (negb (truthy cj)); [apply raises_data_errors_Return|].
  destruct (negb (truthy fj)); [apply raises_data_errors_Return|].
  apply raises_data_errors_bind; [apply raises_data_errors_subscript|]. intros c.
  destruct (ne_number c 200); [apply raises_data_errors_Return|].
  apply raises_data_errors_bind; [apply raises_data_errors_subscript|]. intros f.
  apply raises_data_errors_Return.
Qed.

Lemma raise_not_valid_data_errors cj fj : raises_data_errors (raise_not_valid cj fj).
Proof.
  unfold raise_not_valid.
  apply raises_data_errors_bind; [apply raises_data_errors_get|]. intros _.
  apply raises_data_errors_bind; [apply raises_data_errors_get|]. intros _.
  intros e [= <-]. cbn. tauto.
Qed.

Lemma raises_data_errors_as {A B : Type} (c : result A) (e : exn) :
  c = Raise e -> raises_data_errors c -> raises_data_errors (@Raise B e).
Proof. intros E H e' [= <-]. exact (H e E). Qed.

(** Once both requests are answered, whatever [get_weather] raises is
    raised by the decoding, the check or the constructors. *)
Lemma get_weather_answered loc key un cnt net self cb fb :
  net (CurrentWeather loc key un) = Answer cb ->
  net (FiveDayForecast loc key un cnt) = Answer fb ->
  raises_data_errors (fst (get_weather loc key un cnt net self)).
Proof.
  intros C F. rewrite Refresh.get_weather_steps. unfold send. rewrite C, F.
  cbv beta iota.
  destruct (decode cb) as [cj|e1] eqn:D1;
    [|exact (raises_data_errors_as _ _ D1 (decode_raises cb))].
  destruct (decode fb) as [fj|e2] eqn:D2;
    [|exact (raises_data_errors_as _ _ D2 (decode_raises fb))].
  destruct (not_valid cj fj) as [bad|e3] eqn:V;
    [|exact (raises_data_errors_as _ _ V (not_valid_raises cj fj))].
  destruct (if bad then raise_not_valid cj fj else Return tt) as [[]|e4] eqn:R.
  2:{ apply (raises_data_errors_as _ _ R). destruct bad;
        [apply raise_not_valid_data_errors | apply raises_data_errors_Return]. }
  destruct (DataPoint_init cj) as [c|e5] eqn:P;
    [|exact (raises_data_errors_as _ _ P (DataPoint_init_raises cj))].
  destruct (Forecast_init fj) as [f|e6] eqn:Q;
    [apply raises_data_errors_Return
    |exact (raises_data_errors_as _ _ Q (Forecast_init_raises fj))].
Qed.

(** X8. [get_weather] raises a ConnectionError exactly when one of the
    two requests cannot be reached, whatever the other one answers, and
    then the object is as it was. *)
Theorem connection_error_iff_unreachable (loc key un : string) (cnt : Z)
    (net : provider) (self : WeatherAPI) :
  (fst (get_weather loc key un cnt net self) = Raise ConnectionError <->
   net (CurrentWeather loc key un) = Unreachable \/
   net (FiveDayForecast loc key un cnt) = Unreachable) /\
  (fst (get_weather loc key un cnt net self) = Raise ConnectionError ->
   snd (get_weather loc key un cnt net self) = self).
Proof.
  destruct (net (CurrentWeather loc key un)) as [|cb] eqn:C.
  { rewrite Refresh.get_weather_steps. unfold send. rewrite C. cbn. tauto. }
  destruct (net (FiveDayForecast loc key un cnt)) as [|fb] eqn:F.
  { rewrite Refresh.get_weather_steps. unfold send. rewrite C, F. cbn. tauto. }
  pose proof (get_weather_answered loc key un cnt net self cb fb C F) as D.
  assert (N : fst (get_weather loc key un cnt net self) <> Raise ConnectionError).
  { intros E. apply (in_data_errors_not_connection _ (D _ E)). reflexivity. }
  split; [split; [tauto | intros [?|?]; discriminate] | tauto].
Qed.

(** A body that cannot be decoded does not hide an unreachable
    forecast. *)
Example unreachable_before_undecodable :
  get_weather "Eindhoven" "key" "metric" 8 (forecast_down None) held
  = (Raise ConnectionError, held).
Proof. reflexivity. Qed.

Lemma succeeded_is_valid cj fj :
  current_succeeded cj = true -> forecast_succeeded fj = true ->
  not_valid cj fj = Return false.
Proof.
  unfold current_succeeded, forecast_succeeded, not_valid.
  destruct cj as [| | | | |c]; try discriminate.
  destruct fj as [| | | | |f]; try (destruct (lookup "cod" c); discriminate).
  destruct c as [|kv c]; [discriminate|].
  destruct f as [|kv' f]; [destruct (lookup "cod" (kv :: c)); discriminate|].
  cbn [truthy negb subscript bind].
  destruct (lookup "cod" (kv :: c)) as [cc|]; [|discriminate].
  destruct (lookup "cod" (kv' :: f)) as [fc|]; [|discriminate].
  cbn. intros Hc Hf.
  destruct (ne_number cc 200); [discriminate|].
  destruct (ne_string fc "200"); [discriminate | reflexivity].
Qed.

(** X9. [get_weather] returns exactly when both requests are answered
    with bodies that decode, the current weather reports the code 200
    and the forecast the code "200", and both constructors return; the
    object then holds the two values they built. *)
Theorem refresh_returns_iff (loc key un : string) (cnt : Z)
    (net : provider) (self : WeatherAPI) (self' : WeatherAPI) :
  get_weather loc key un cnt net self = (Return tt, self') <->
  exists cj fj c f,
    net (CurrentWeather loc key un) = Answer (Some cj) /\
    net (FiveDayForecast loc key un cnt) = Answer (Some fj) /\
    current_succeeded cj = true /\ forecast_succeeded fj = true /\
    DataPoint_init cj = Return c /\ Forecast_init fj = Return f /\
    self' = set_forecast (set_current self c) f.
Proof.
  split.
  - intros H.
    destruct (net (CurrentWeather loc key un)) as [|[cj|]] eqn:C;
      try (rewrite Refresh.get_weather_steps in H; unfold send in H;
           rewrite C in H; cbn in H;
           try destruct (net (FiveDayForecast loc key un cnt)) as [|[?|]];
           discriminate H).
    destruct (net (FiveDayForecast loc key un cnt)) as [|[fj|]] eqn:F;
      try (rewrite Refresh.get_weather_steps in H; unfold send in H;
           rewrite C, F in H; cbn in H; discriminate H).
    destruct (current_succeeded cj && forecast_succeeded fj) eqn:B.
    + apply andb_prop in B as [Bc Bf].
      rewrite Refresh.get_weather_steps in H. unfold send in H.
      rewrite C, F in H. cbn in H.
      rewrite (succeeded_is_valid cj fj Bc Bf) in H.
      destruct (DataPoint_init cj) as [c|] eqn:P; [|discriminate H].
      destruct (Forecast_init fj) as [f|] eqn:Q; [|discriminate H].
      injection H as <-. exists cj, fj, c, f. auto 10.
    + destruct (Refresh.get_weather_without_success loc key un cnt net self cj fj C F B)
        as (e & E & _). rewrite E in H. discriminate H.
  - intros (cj & fj & c & f & C & F & Bc & Bf & P & Q & ->).
    rewrite Refresh.get_weather_steps. unfold send. rewrite C, F. cbn.
    now rewrite (succeeded_is_valid cj fj Bc Bf), P, Q.
Qed.

(** X10. [get_weather] done twice against the same answers is
    [get_weather] done once: the second call returns or raises as the
    first did and leaves the object the first call left. *)
Theorem refresh_twice (loc key un : string) (cnt : Z) (net : provider)
    (self : WeatherAPI) :
  get_weather loc key un cnt net (snd (get_weather loc key un cnt net self))
  = get_weather loc key un cnt net self.
Proof.
  rewrite Refresh.get_weather_steps.
  rewrite (Refresh.get_weather_steps loc key un cnt net self).
  destruct (send net (CurrentWeather loc key un)); [|reflexivity].
  destruct (send net (FiveDayForecast loc key un cnt)); [|reflexivity].
  destruct (decode a); [|reflexivity].
  destruct (decode a0); [|reflexivity].
  destruct (not_valid a1 a2) as [bad|]; [|reflexivity].
  destruct (if bad then raise_not_valid a1 a2 else Return tt); [|reflexivity].
  destruct (DataPoint_init a1); [|reflexivity].
  destruct (Forecast_init a2); reflexivity.
Qed.

Lemma get_weather_keeps loc key un cnt net self :
  let self' := snd (get_weather loc key un cnt net self) in
  location_name self' = location_name self /\ api_key self' = api_key self /\
  units self' = units self /\ count self' = count self /\
  (current self <> None -> current self' <> None) /\
  (forecast self <> None -> forecast self' <> None).
Proof.
  rewrite Refresh.get_weather_steps.
  destruct (send net (CurrentWeather loc key un)); [|cbn; tauto].
  destruct (send net (FiveDayForecast loc key un cnt)); [|cbn; tauto].
  destruct (decode a); [|cbn; tauto].
  destruct (decode a0); [|cbn; tauto].
  destruct (not_valid a1 a2) as [bad|]; [|cbn; tauto].
  destruct (if bad then raise_not_valid a1 a2 else Return tt); [|cbn; tauto].
  destruct (DataPoint_init a1); [|cbn; tauto].
  destruct (Forecast_init a2); cbn; repeat split; auto; discriminate.
Qed.

(** X11. [update(location)] uses the location it is given for the
    request only: through any run of updates, returning or raising, the
    object keeps its [location_name], [api_key], [units] and [count]. *)
Theorem updates_keep_configuration (calls : list (string * provider))
    (self : WeatherAPI) :
  location_name (updates calls self) = location_name self /\
  api_key (updates calls self) = api_key self /\
  units (updates calls self) = units self /\
  count (updates calls self) = count self.
Proof.
  revert self. induction calls as [|[l net] calls IH]; intros self;
    cbn [updates]; [tauto|].
  destruct (IH (snd (update l net self))) as (A & B & C & D).
  destruct (get_weather_keeps l (api_key self) (units self) (count self) net self)
    as (A' & B' & C' & D' & _).
  cbv zeta in A', B', C', D'.
  rewrite A, B, C, D. unfold update. auto.
Qed.

Lemma get_weather_returned loc key un cnt net self self' :
  get_weather loc key un cnt net self = (Return tt, self') ->
  exists c f, self' = set_forecast (set_current self c) f.
Proof.
  rewrite Refresh.get_weather_steps.
  destruct (send net (CurrentWeather loc key un)); [|discriminate].
  destruct (send net (FiveDayForecast loc key un cnt)); [|discriminate].
  destruct (decode a); [|discriminate].
  destruct (decode a0); [|discriminate].
  destruct (not_valid a1 a2) as [bad|]; [|discriminate].
  destruct (if bad then raise_not_valid a1 a2 else Return tt); [|discriminate].
  destruct (DataPoint_init a1) as [c|]; [|discriminate].
  destruct (Forecast_init a2) as [f|]; [|discriminate].
  intros [= <-]. eauto.
Qed.

(** X12. An object that [__init__] returned holds both a current
    DataPoint and a Forecast, with the configuration it was given, and
    no later run of updates, failing or not, unsets either. *)
Theorem constructed_object_holds_both (loc key un : string) (cnt : Z)
    (net : provider) (w : WeatherAPI) (calls : list (string * provider)) :
  WeatherAPI_init loc key un cnt net = Return w ->
  both_set w = true /\
  location_name w = loc /\ api_key w = key /\ units w = un /\ count w = cnt /\
  both_set (updates calls w) = true.
Proof.
  unfold WeatherAPI_init, update. cbn [api_key units count].
  set (self := {| location_name := loc; api_key := key; units := un;
                  count := cnt; current := None; forecast := None |}).
  destruct (get_weather loc key un cnt net self) as [[[]|e] self'] eqn:G;
    [|discriminate].
  intros [= <-].
  apply get_weather_returned in G as (c & f & ->).
  assert (B : both_set (set_forecast (set_current self c) f) = true) by reflexivity.
  repeat split; try reflexivity.
  revert B. generalize (set_forecast (set_current self c) f).
  induction calls as [|[l n] calls IH]; intros s B; cbn [updates]; [exact B|].
  apply IH.
  destruct (get_weather_keeps l (api_key s) (units s) (count s) n s)
    as (_ & _ & _ & _ & Kc & Kf).
  cbv zeta in Kc, Kf. unfold update, both_set in *.
  destruct (current s); [|discriminate]. destruct (forecast s); [|discriminate].
  destruct (current _); [|now destruct Kc].
  destruct (forecast _); [reflexivity | now destruct Kf].
Qed.

Lemma connection_error_iff_unreachable_witness :
  forecast_down None (FiveDayForecast "Eindhoven" "key" "metric" 8) = Unreachable /\
  fst (get_weather "Eindhoven" "key" "metric" 8 (forecast_down None) held)
    = Raise ConnectionError /\
  snd (get_weather "Eindhoven" "key" "metric" 8 (forecast_down None) held) = held.
Proof.
  destruct (connection_error_iff_unreachable "Eindhoven" "key" "metric" 8
              (forecast_down None) held) as [I K].
  assert (E : fst (get_weather "Eindhoven" "key" "metric" 8 (forecast_down None) held)
              = Raise ConnectionError) by (apply I; right; reflexivity).
  split; [reflexivity|]. split; [exact E | exact (K E)].
Defined.

Lemma constructed_object_holds_both_witness :
  exists w,
    WeatherAPI_init "Eindhoven" "key" "metric" 8 (answers dry_record forecast_response)
      = Return w /\
    both_set w = true /\
    both_set (updates [("Weert", answers dry_record forecast_without_list);
                       ("Weert", fun _ => Unreachable)] w) = true.
Proof.
  eexists. split; [reflexivity|].
  destruct (constructed_object_holds_both "Eindhoven" "key" "metric" 8
              (answers dry_record forecast_response) _
              [("Weert", answers dry_record forecast_without_list);
               ("Weert", fun _ => Unreachable)] eq_refl)
    as (B & _ & _ & _ & _ & U).
  split; [exact B | exact U].
Defined.

Lemma check_of_coded_answers (cj fj : json) :
  coded_or_empty cj = true -> coded_or_empty fj = true ->
  current_succeeded cj && forecast_succeeded fj = false ->
  not_valid cj fj = Return true /\ raise_not_valid cj fj = Raise ValueError.
Proof.
  intros Kc Kf B.
  unfold coded_or_empty, current_succeeded, forecast_succeeded in *.
  unfold not_valid, raise_not_valid.
  destruct cj as [| | | | |c]; try discriminate.
  destruct fj as [| | | | |f]; try discriminate.
  destruct c as [|kc c]; destruct f as [|kf f]; cbn [truthy negb get subscript bind].
  - auto.
  - destruct (lookup "cod" (kf :: f)); auto.
  - destruct (lookup "cod" (kc :: c)); [auto | discriminate].
  - destruct (lookup "cod" (kc :: c)) as [cc|]; [|discriminate].
    destruct (lookup "cod" (kf :: f)) as [fc|]; [|discriminate].
    cbn in *. destruct (ne_number cc 200); [auto|].
    cbn in B. rewrite negb_false_iff in B. rewrite B. auto.
Qed.

(** X13. The documented ValueError: when both answers are JSON objects
    that are empty or carry a "cod", and they do not both report
    success, [get_weather] raises a ValueError and leaves the object as
    it was. *)
Theorem refresh_value_error (loc key un : string) (cnt : Z) (net : provider)
    (self : WeatherAPI) (cj fj : json) :
  net (CurrentWeather loc key un) = Answer (Some cj) ->
  net (FiveDayForecast loc key un cnt) = Answer (Some fj) ->
  coded_or_empty cj = true -> coded_or_empty fj = true ->
  current_succeeded cj && forecast_succeeded fj = false ->
  get_weather loc key un cnt net self = (Raise ValueError, self).
Proof.
  intros C F Kc Kf B.
  destruct (check_of_coded_answers cj fj Kc Kf B) as [V R].
  rewrite Refresh.get_weather_steps. unfold send. rewrite C, F. cbv beta iota.
  cbn [decode]. now rewrite V, R.
Qed.

Lemma refresh_value_error_witness :
  coded_or_empty dry_record = true /\ coded_or_empty not_found = true /\
  current_succeeded dry_record && forecast_succeeded not_found = false /\
  get_weather "Eindhoven" "key" "metric" 8 (answers dry_record not_found) held
    = (Raise ValueError, held).
Proof.
  split; [reflexivity|]. split; [reflexivity|]. split; [reflexivity|].
  apply (refresh_value_error "Eindhoven" "key" "metric" 8
           (answers dry_record not_found) held dry_record not_found);
    reflexivity.
Defined.

(** X14. Answers the check was not written for: a current answer that
    is a non-empty JSON object without "cod" (the forecast answer being
    non-empty) raises a KeyError, and a current answer that is
    [null], [false], [0], the empty string or the empty array raises an
    AttributeError, since the error message is built with [.get]; in
    both cases the object is as it was. *)
Theorem refresh_undocumented_errors (loc key un : string) (cnt : Z)
    (net : provider) (self : WeatherAPI) (cj fj : json) :
  net (CurrentWeather loc key un) = Answer (Some cj) ->
  net (FiveDayForecast loc key un cnt) = Answer (Some fj) ->
  (forall c, cj = JDict c -> c <> [] -> lookup "cod" c = None -> truthy fj = true ->
     get_weather loc key un cnt net self = (Raise KeyError, self)) /\
  (truthy cj = false -> is_dict cj = false ->
     get_weather loc key un cnt net self = (Raise AttributeError, self)).
Proof.
  intros C F. split.
  - intros c -> N L T.
    rewrite Refresh.get_weather_steps. unfold send. rewrite C, F. cbv beta iota.
    cbn [decode]. unfold not_valid.
    destruct c as [|kv c]; [now destruct N|].
    cbn [truthy negb]. rewrite T. cbn [negb subscript]. rewrite L. reflexivity.
  - intros T D.
    rewrite Refresh.get_weather_steps. unfold send. rewrite C, F. cbv beta iota.
    cbn [decode]. unfold not_valid. rewrite T. cbn [negb].
    destruct cj; try discriminate D; reflexivity.
Qed.

Lemma refresh_undocumented_errors_witness :
  get_weather "Eindhoven" "key" "metric" 8
    (answers (JDict [("message", JStr "Internal error")]) forecast_response) held
    = (Raise KeyError, held) /\
  get_weather "Eindhoven" "key" "metric" 8 (answers JNull forecast_response) held
    = (Raise AttributeError, held).
Proof.
  split.
  - apply (refresh_undocumented_errors "Eindhoven" "key" "metric" 8
             (answers (JDict [("message", JStr "Internal error")]) forecast_response)
             held (JDict [("message", JStr "Internal error")]) forecast_response
             eq_refl eq_refl) with (c := [("message", JStr "Internal error")]);
      [reflexivity | discriminate | reflexivity | reflexivity].
  - apply (refresh_undocumented_errors "Eindhoven" "key" "metric" 8
             (answers JNull forecast_response) held JNull forecast_response
             eq_refl eq_refl); reflexivity.
Defined.

End Refreshing.

(* ===================================================================== *)
(** * More on [make_decision]                                            *)
(* ===================================================================== *)

Module Window.
Import weather controller DecisionEngine Binary64 FloatFacts EngineFacts Shapes Samples.






(** X16. [make_decision] sees the forecast through its window only: two
    forecasts with the same first [lookahead_hours // 3] entries get the
    same boolean or the same exception, so with the default lookahead
    of 3 all entries after the first are without effect. *)
Theorem make_decision_reads_window (f1 f2 : Forecast) (sm mt la : Z) :
  firstn (Z.to_nat (la / 3)) (data f1) = firstn (Z.to_nat (la / 3)) (data f2) ->
  make_decision f1 sm mt la = make_decision f2 sm mt la.
Proof.
  intros W. unfold make_decision.
  destruct (negb ((3 <=? la)%Z && (la <? 120)%Z)) eqn:G; [reflexivity|].
  assert (Hla : (3 <= la < 120)%Z).
  { apply negb_false_iff, andb_prop in G as [A B].
    apply Z.leb_le in A. apply Z.ltb_lt in B. lia. }
  assert (S : forall xs : list DataPoint,
            slice_to xs (la / 3) = firstn (Z.to_nat (la / 3)) xs).
  { intros xs. unfold slice_to.
    destruct (la / 3 <? 0)%Z eqn:N; [|reflexivity].
    apply Z.ltb_lt in N. destruct (steps_in_range la Hla). lia. }
  now rewrite !S, W.
Qed.

Lemma make_decision_reads_window_witness :
  make_decision_default {| data := data hot_step ++ data frost |} 50 45
  = make_decision_default hot_step 50 45.
Proof.
  apply (make_decision_reads_window {| data := data hot_step ++ data frost |}
           hot_step 50 45 3).
  reflexivity.
Defined.

(** X17. Soil that is at or above both the threshold and 60 is never
    watered: whatever the forecast (well formed or not) and whatever the
    lookahead, [make_decision] does not return true. *)
Theorem moist_soil_is_never_watered (f : Forecast) (sm mt la : Z) :
  (mt <= sm)%Z -> (60 <= sm)%Z ->
  make_decision f sm mt la <> Return true.
Proof.
  intros Hmt H60. unfold make_decision.
  destruct (negb ((3 <=? la)%Z && (la <? 120)%Z)); [discriminate|].
  destruct (for_each _ start) as [a|e]; cbn; [|discriminate].
  destruct (sm <? mt)%Z eqn:A; [apply Z.ltb_lt in A; lia|].
  destruct (sm <? 60)%Z eqn:B; [apply Z.ltb_lt in B; lia|].
  rewrite andb_false_r.
  destruct (30 <? max_temp a)%float; discriminate.
Qed.

Lemma moist_soil_is_never_watered_witness :
  (45 <= 60)%Z /\ (60 <= 60)%Z /\ make_decision hot_step 60 45 3 <> Return true.
Proof.
  split; [lia|]. split; [lia|].
  apply (moist_soil_is_never_watered hot_step 60 45 3); lia.
Defined.

(** X18. Enough forecast rain stops the watering on either branch: on a
    typed forecast and a lookahead in [3,120), when the rain summed over
    the window is not below [0.45 * steps] the answer is false for every
    soil moisture and threshold. *)
Theorem enough_rain_is_never_watered (f : Forecast) (sm mt la : Z) :
  typed_forecast f = true ->
  (3 <= la < 120)%Z ->
  littleRain (totalRainfall (prefix f (steps la))) (steps la) = false ->
  make_decision f sm mt la = Return false.
Proof.
  intros Hty Hla Hrain.
  rewrite (make_decision_typed f sm mt la Hty Hla). unfold rule.
  rewrite Hrain. destruct (sm <? mt)%Z; [reflexivity|].
  now rewrite andb_false_r.
Qed.

Lemma enough_rain_is_never_watered_witness :
  typed_forecast {| data := [entry 35 20 (JNum 0.45)] |} = true /\
  (3 <= 3 < 120)%Z /\
  make_decision {| data := [entry 35 20 (JNum 0.45)] |} 10 45 3 = Return false /\
  make_decision {| data := [entry 35 20 (JNum 0.45)] |} 50 45 3 = Return false.
Proof.
  split; [reflexivity|]. split; [lia|]. split.
  - apply (enough_rain_is_never_watered _ 10 45 3); [reflexivity | lia | reflexivity].
  - apply (enough_rain_is_never_watered _ 50 45 3); [reflexivity | lia | reflexivity].
Defined.

Lemma is_nan_SF x : is_nan x = true -> Prim2SF x = S754_nan.
Proof.
  unfold is_nan. rewrite FloatAxioms.eqb_spec. unfold SFeqb, SFcompare.
  destruct (Prim2SF x) as [s|s| |s m e]; try reflexivity;
    destruct s; cbn; try discriminate;
    rewrite Z.compare_refl;
    change (PosDef.Pos.compare_cont Eq m m) with (Pos.compare m m);
    rewrite Pos.compare_refl; discriminate.
Qed.

Lemma SF_nan_is_nan x : Prim2SF x = S754_nan -> is_nan x = true.
Proof.
  intros E. unfold is_nan. now rewrite FloatAxioms.eqb_spec, E.
Qed.

Lemma add_nan_l x y : is_nan x = true -> is_nan (x + y)%float = true.
Proof.
  intros H. apply SF_nan_is_nan. rewrite FloatAxioms.add_spec.
  now rewrite (is_nan_SF x H).
Qed.

Lemma add_nan_r x y : is_nan y = true -> is_nan (x + y)%float = true.
Proof.
  intros H. apply SF_nan_is_nan. rewrite FloatAxioms.add_spec.
  rewrite (is_nan_SF y H). unfold SF64add, SFadd. now destruct (Prim2SF x).
Qed.

Lemma nan_ltb x c : is_nan x = true -> (x <? c)%float = false.
Proof.
  intros H. now rewrite FloatAxioms.ltb_spec, (is_nan_SF x H).
Qed.

Lemma sum_from_nan_start ps : forall s,
  is_nan s = true -> is_nan (sum_from s ps) = true.
Proof.
  unfold sum_from. induction ps as [|p ps IH]; intros s H; cbn; [exact H|].
  apply IH. destruct (rainThreeHours p); cbn; [now apply add_nan_l | exact H].
Qed.

Lemma sum_from_nan ps : forall s p x,
  In p ps -> rain_three_hours p = JNum x -> is_nan x = true ->
  is_nan (sum_from s ps) = true.
Proof.
  induction ps as [|q ps IH]; intros s p x Hin R N; [destruct Hin|].
  destruct Hin as [<-|Hin].
  - unfold sum_from. cbn. fold (sum_from (add_present s (rainThreeHours q)) ps).
    apply sum_from_nan_start. unfold rainThreeHours. rewrite R. cbn.
    now apply add_nan_r.
  - unfold sum_from. cbn. fold (sum_from (add_present s (rainThreeHours q)) ps).
    eapply IH; eauto.
Qed.

(** X19. A NaN among the three-hour rain values of the window (Python's
    JSON decoder accepts [NaN]) makes the rainfall total NaN, and no
    comparison with NaN holds: on a typed forecast the answer is then
    false for every soil moisture and threshold. *)
Theorem nan_rain_is_never_watered (f : Forecast) (sm mt la : Z)
    (p : DataPoint) (x : float) :
  typed_forecast f = true ->
  (3 <= la < 120)%Z ->
  In p (prefix f (steps la)) ->
  rain_three_hours p = JNum x -> is_nan x = true ->
  make_decision f sm mt la = Return false.
Proof.
  intros Hty Hla Hin R N.
  rewrite (make_decision_typed f sm mt la Hty Hla). unfold rule, littleRain.
  unfold totalRainfall.
  rewrite (nan_ltb _ _ (sum_from_nan _ 0%float p x Hin R N)).
  destruct (sm <? mt)%Z; [reflexivity|]. now rewrite andb_false_r.
Qed.

Lemma nan_rain_is_never_watered_witness :
  typed_forecast {| data := [entry 35 20 (JNum nan)] |} = true /\
  (3 <= 3 < 120)%Z /\
  make_decision {| data := [entry 35 20 (JNum nan)] |} 10 45 3 = Return false.
Proof.
  split; [reflexivity|]. split; [lia|].
  apply (nan_rain_is_never_watered _ 10 45 3 (entry 35 20 (JNum nan)) nan);
    [reflexivity | lia | left; reflexivity | reflexivity | reflexivity].
Defined.

End Window.

(* ===================================================================== *)
(** * The routes of [app.py]                                             *)
(* ===================================================================== *)

Module Routes.
Import weather controller DecisionEngine Shapes Samples app.

Lemma set_weather_data_same g : set_weather_data g (weather_data g) = g.
Proof. now destruct g. Qed.

Lemma get_weather_unreachable loc key un cnt net self :
  net (CurrentWeather loc key un) = Unreachable \/
  net (FiveDayForecast loc key un cnt) = Unreachable ->
  get_weather loc key un cnt net self = (Raise ConnectionError, self).
Proof.
  intros H. rewrite Refresh.get_weather_steps. unfold send.
  destruct (net (CurrentWeather loc key un)); [reflexivity|].
  destruct H as [H|H]; [discriminate H | now rewrite H].
Qed.

Section Served.
Variable int_of_utf8 : string -> result Z.

Lemma display_text_threshold net body g t :
  threshold g = Text t ->
  returns (fst (display int_of_utf8 net body g)) = false.
Proof.
  intros T. unfold display.
  destruct (int_of_utf8 body); [|reflexivity].
  cbn [location weather_data set_sensor_moisture].
  destruct (update (location g) net (weather_data g)) as [[[]|e] w]; [|reflexivity].
  cbn [threshold set_weather_data set_sensor_moisture]. rewrite T.
  destruct (forecast_of w) as [f|]; cbn; [|reflexivity].
  destruct (for_each _ start); reflexivity.
Qed.

Lemma serve_keeps_text c g :
  (exists t, threshold g = Text t) ->
  exists t, threshold (snd (serve int_of_utf8 c g)) = Text t.
Proof.
  intros [t T]. destruct c as [net|net|m form|net body]; cbn [serve].
  - unfold index. destruct (update _ net _) as [[[]|e] w];
      [|destruct (caught e)]; cbn; eauto.
  - unfold forecast. destruct (update _ net _) as [[[]|e] w];
      [|destruct (caught e)]; cbn; eauto.
  - unfold settings. destruct m; [cbn; eauto|].
    destruct (form_item form "location"); [|cbn; eauto].
    destruct (form_item form "threshold"); [|cbn; eauto].
    destruct (form_item form "water-amount"); cbn; eauto.
  - unfold display. destruct (int_of_utf8 body); [|cbn; eauto].
    cbn [location weather_data set_sensor_moisture].
    destruct (update (location g) net (weather_data g)) as [[[]|e] w]; [|cbn; eauto].
    destruct (bind _ _); cbn; eauto.
Qed.

Lemma after_keeps_text calls : forall g,
  (exists t, threshold g = Text t) ->
  exists t, threshold (after int_of_utf8 calls g) = Text t.
Proof.
  induction calls as [|c calls IH]; intros g T; cbn [after]; [exact T|].
  apply IH, serve_keeps_text, T.
Qed.

(** X20. A POST to /settings that returns has stored the three form
    fields as they came, as strings; the threshold is then a string, no
    route makes it a number again, and from then on every POST to /base
    raises instead of answering a decision, whatever requests come in
    between. *)
Theorem settings_post_breaks_base (form : list (string * string))
    (g g0 : globals) (pg : page) (calls : list call) (net : provider)
    (body : string) :
  settings POST form g = (Return pg, g0) ->
  (exists l t a,
     field "location" form = Some l /\ field "threshold" form = Some t /\
     field "water-amount" form = Some a /\
     location g0 = l /\ threshold g0 = Text t /\ water_amount g0 = Text a) /\
  returns (fst (display int_of_utf8 net body (after int_of_utf8 calls g0))) = false.
Proof.
  unfold settings, form_item.
  destruct (field "location" form) as [l|] eqn:L; [|discriminate].
  destruct (field "threshold" form) as [t|] eqn:T; [|discriminate].
  destruct (field "water-amount" form) as [a|] eqn:A; [|discriminate].
  intros [= _ <-]. split.
  - exists l, t, a. repeat split.
  - destruct (after_keeps_text calls
                (set_water_amount (set_threshold (set_location g l) (Text t)) (Text a)))
      as [t' T']; [cbn; eauto|].
    exact (display_text_threshold net body _ t' T').
Qed.

End Served.

Lemma settings_post_breaks_base_witness :
  settings POST [("location", "Weert"); ("threshold", "40"); ("water-amount", "20")]
           (at_start held)
  = (Return (settings_html (Text "40") (Text "20") "Weert"),
     set_water_amount (set_threshold (set_location (at_start held) "Weert") (Text "40"))
                      (Text "20")) /\
  returns (fst (display (fun _ => Return 30%Z) (answers dry_record forecast_response) "30"
                  (after (fun _ => Return 30%Z)
                     [to_index (answers dry_record forecast_response)]
                     (set_water_amount
                        (set_threshold (set_location (at_start held) "Weert") (Text "40"))
                        (Text "20"))))) = false.
Proof.
  split; [reflexivity|].
  apply (settings_post_breaks_base (fun _ => Return 30%Z)
           [("location", "Weert"); ("threshold", "40"); ("water-amount", "20")]
           (at_start held) _ (settings_html (Text "40") (Text "20") "Weert")).
  reflexivity.
Defined.

(** X21. A POST to /settings assigns field by field: a form with a
    "location" but no "threshold" raises a KeyError after the location
    was replaced, and a form that lacks only "water-amount" raises it
    after location and threshold were replaced. *)
Theorem settings_post_is_partial (form : list (string * string)) (g : globals)
    (l : string) :
  field "location" form = Some l ->
  (field "threshold" form = None ->
     settings POST form g = (Raise KeyError, set_location g l)) /\
  (forall t, field "threshold" form = Some t ->
     field "water-amount" form = None ->
     settings POST form g
     = (Raise KeyError, set_threshold (set_location g l) (Text t))).
Proof.
  intros L. unfold settings, form_item. rewrite L. split.
  - now intros ->.
  - intros t -> ->. reflexivity.
Qed.

Lemma settings_post_is_partial_witness :
  field "location" [("location", "Weert")] = Some "Weert" /\
  settings POST [("location", "Weert")] (at_start held)
  = (Raise KeyError, set_location (at_start held) "Weert") /\
  location (set_location (at_start held) "Weert") <> location (at_start held).
Proof.
  split; [reflexivity|]. split.
  - apply (settings_post_is_partial [("location", "Weert")] (at_start held) "Weert");
      reflexivity.
  - discriminate.
Defined.

(** X22. The pages do not catch a provider that cannot be reached: the
    [except] clause of [index] and [forecast] names the builtin
    ConnectionError, the one raised is that of [requests], so the
    exception leaves the route and no error page is answered. *)
Theorem unreachable_provider_is_not_caught (net : provider) (g : globals) :
  net (CurrentWeather (location g) (api_key (weather_data g))
                      (units (weather_data g))) = Unreachable \/
  net (FiveDayForecast (location g) (api_key (weather_data g))
                       (units (weather_data g)) (count (weather_data g))) = Unreachable ->
  index net g = (Raise ConnectionError, g) /\
  forecast net g = (Raise ConnectionError, g).
Proof.
  intros H. unfold index, forecast, update.
  rewrite (get_weather_unreachable _ _ _ _ net (weather_data g) H).
  cbn. now rewrite set_weather_data_same.
Qed.

Lemma unreachable_provider_is_not_caught_witness :
  index (fun _ => Unreachable) (at_start held)
    = (Raise ConnectionError, at_start held) /\
  forecast (fun _ => Unreachable) (at_start held)
    = (Raise ConnectionError, at_start held).
Proof.
  apply (unreachable_provider_is_not_caught (fun _ => Unreachable) (at_start held)).
  left. reflexivity.
Defined.

(** X23. The error page: when both answers are JSON objects that are
    empty or carry a "cod" and they do not both report success, [index]
    and [forecast] answer the error page with the ValueError, and the
    globals are as they were. *)
Theorem failed_code_gives_error_page (net : provider) (g : globals) (cj fj : json) :
  net (CurrentWeather (location g) (api_key (weather_data g))
                      (units (weather_data g))) = Answer (Some cj) ->
  net (FiveDayForecast (location g) (api_key (weather_data g))
                       (units (weather_data g)) (count (weather_data g)))
    = Answer (Some fj) ->
  coded_or_empty cj = true -> coded_or_empty fj = true ->
  current_succeeded cj && forecast_succeeded fj = false ->
  index net g = (Return (error_html ValueError), g) /\
  forecast net g = (Return (error_html ValueError), g).
Proof.
  intros C F Kc Kf B. unfold index, forecast, update.
  destruct (Refreshing.check_of_coded_answers cj fj Kc Kf B) as [V R].
  rewrite Refresh.get_weather_steps. unfold send. rewrite C, F. cbv beta iota.
  cbn [decode]. rewrite V, R. cbn. now rewrite set_weather_data_same.
Qed.

Lemma failed_code_gives_error_page_witness :
  coded_or_empty dry_record = true /\ coded_or_empty not_found = true /\
  current_succeeded dry_record && forecast_succeeded not_found = false /\
  index (answers dry_record not_found) (at_start held)
    = (Return (error_html ValueError), at_start held) /\
  forecast (answers dry_record not_found) (at_start held)
    = (Return (error_html ValueError), at_start held).
Proof.
  split; [reflexivity|]. split; [reflexivity|]. split; [reflexivity|].
  apply (failed_code_gives_error_page (answers dry_record not_found) (at_start held)
           dry_record not_found); reflexivity.
Defined.

(** X24. /base with a body that parses, a numeric threshold and an
    update that returns: the Forecast it reads is set, the answer is what
    [make_decision] says of the fresh Forecast with the default
    lookahead, as the text "True" or "False" (or the TypeError of its
    loop), and the globals hold the raw body and the refreshed data. *)
Theorem base_answers_decision (int_of_utf8 : string -> result Z)
    (net : provider) (body : string) (g : globals) (m t : Z) (w : WeatherAPI) :
  int_of_utf8 body = Return m ->
  threshold g = Number t ->
  update (location g) net (weather_data g) = (Return tt, w) ->
  exists f,
    weather.forecast w = Some f /\
    display int_of_utf8 net body g
    = (match make_decision_default f m t with
       | Return b => Return (plain (str b))
       | Raise e => Raise e
       end,
       set_weather_data (set_sensor_moisture g (Body body)) w).
Proof.
  intros P T U.
  unfold update in U.
  destruct (Refreshing.get_weather_returned _ _ _ _ _ _ _ U) as (c & f & ->).
  exists f. split; [reflexivity|].
  unfold display. rewrite P.
  cbn [location weather_data set_sensor_moisture].
  unfold update. rewrite U.
  cbn [threshold set_weather_data set_sensor_moisture forecast_of
       weather.forecast set_forecast bind].
  rewrite T. cbn [call_make_decision]. unfold make_decision_default.
  destruct (make_decision f m t 3); reflexivity.
Qed.

Lemma base_answers_decision_witness :
  display (fun _ => Return 30%Z) (answers dry_record forecast_response) "30"
          (at_start held)
  = (Return (plain "False"),
     set_weather_data (set_sensor_moisture (at_start held) (Body "30"))
       (set_forecast (set_current held dry_point) {| data := [wet_point] |})).
Proof.
  destruct (base_answers_decision (fun _ => Return 30%Z)
              (answers dry_record forecast_response) "30" (at_start held) 30 45
              (set_forecast (set_current held dry_point) {| data := [wet_point] |}))
    as (f & F & D); [reflexivity | reflexivity | reflexivity |].
  injection F as <-. exact D.
Defined.

End Routes.
